(** * AdsDataSqlSync: the forwarding and command layer of run.py, and the
    metrics engine of the specification

    The file has three parts.
    - [Py]: the fragment of Python that run.py relies on: values, the
      exceptions the code can raise, name resolution inside a function body,
      and a writer/error monad that records every call leaving the process.
    - [Run]: run.py, function by function.
    - [Engine]: the metrics engine (row_view_to_metrics).  adsdata/metrics.py
      is not part of the sources at hand, so this part follows the
      specification text, with the lookup of citing records in the shape
      tests/metrics_unittests.py gives it. *)

From Stdlib Require Import Ascii String ZArith QArith Lia.
From stdpp Require Import base option list gmap strings.

Local Set Warnings "-register-all".
Local Open Scope Z_scope.

(* ===================================================================== *)
(** ** Python values, exceptions and effects *)
(* ===================================================================== *)

Module Py.

(** Values.  Objects of the libraries run.py imports (sqlalchemy, adsdata,
    adsmsg, logging) are kept symbolic: [VGlobal n] is what the module-level
    name [n] is bound to, [VAttr o a] is [o.a], [VCall f args kw] is the
    result of calling [f] with positional arguments [args] and keyword
    arguments [kw], and [VAdd a b] is [a + b] when an operand is
    such an object. *)
Inductive PyVal : Type :=
| VNone
| VBool (b : bool)
| VInt (n : Z)
| VFloat (q : Q)   (* a float, as the rational its literal denotes *)
| VStr (s : string)
| VList (l : list PyVal)
| VDict (d : gmap string PyVal)
| VGlobal (name : string)
| VAttr (obj : PyVal) (attr : string)
| VCall (callee : PyVal) (args : list PyVal) (kwargs : gmap string PyVal)
| VAdd (a b : PyVal).

(** A dict with string keys: a table row after [dict(row)], the keyword
    arguments of a call, the loaded configuration, an argparse namespace. *)
Abbreviation Row := (gmap string PyVal).

Inductive Exn : Type :=
| UnboundLocalError (name : string)
| NameError (name : string)
| KeyError (key : string)
| AttributeError (attr : string)
| TypeError (what : string)
| ValueError (what : string).

(** What leaves the process.
    - [EvLog]: a call of logger.info / logger.debug;
    - [EvPrint]: a print statement with its items;
    - [EvCall]: a call into sqlalchemy or adsdata (engines, connections,
      cursors, NonBib and Metrics objects, file readers);
    - [EvPublish]: [task.delay(recs)], with the record list [recs] holds. *)
Inductive Event : Type :=
| EvLog (level : string) (args : list PyVal)
| EvPrint (items : list PyVal)
| EvCall (callee : PyVal) (args : list PyVal)
| EvPublish (task : string) (batch : list PyVal).

(** A computation ends with an exception or a value, and leaves the trace of
    the events it performed up to that point, oldest first. *)
Definition M (A : Type) : Type := (Exn + A) * list Event.

Definition ret {A} (a : A) : M A := (inr a, []).

Definition raise {A} (e : Exn) : M A := (inl e, []).

Definition bind {A B} (m : M A) (k : A -> M B) : M B :=
  match m with
  | (inl e, tr) => (inl e, tr)
  | (inr a, tr) => let '(r, tr') := k a in (r, tr ++ tr')
  end.

#[global] Instance M_ret : MRet M := @ret.
#[global] Instance M_bind : MBind M := fun A B k m => bind m k.

Definition emit (ev : Event) : M unit := (inr tt, [ev]).

Definition outcome {A} (m : M A) : Exn + A := m.1.
Definition trace {A} (m : M A) : list Event := m.2.

(** [for x in xs: body], with the variables the loop updates as [s]. *)
Fixpoint for_each {A S} (xs : list A) (s : S) (body : S -> A -> M S) : M S :=
  match xs with
  | [] => ret s
  | x :: xs' => s' ← body s x; for_each xs' s' body
  end.

(** Names bound at module level in run.py: the imports, [logger], [config]
    and the functions the module defines. *)
Definition module_globals : list string :=
  ["sys"; "re"; "argparse"; "os"; "sessionmaker"; "select"; "create_engine";
   "nonbib"; "metrics"; "reader"; "load_config"; "setup_logging";
   "NonBibRecord"; "NonBibRecordList"; "MetricsRecord"; "MetricsRecordList";
   "task_output_results"; "task_output_metrics"; "logger"; "config";
   "load_column_files"; "nonbib_to_master_pipeline";
   "nonbib_delta_to_master_pipeline"; "metrics_to_master_pipeline";
   "metrics_delta_to_master_pipeline"; "diagnose_nonbib"; "diagnose_metrics";
   "main"].

(** Reading a name inside a function body.  [co_varnames] are the function's
    local names: its parameters and every name the body assigns.  Such a name
    is read from the frame and nowhere else, and reading it before it is
    bound raises UnboundLocalError; any other name is read from the module.

    In the functions below a local that is assigned on every path before it
    is read is a variable of the definition.  A read that no assignment
    precedes in the text ([nonbib], [metrics], and [recs] and [rec] in
    metrics_delta_to_master_pipeline) goes through [lookup_name], with a
    frame that holds the parameters and the locals those reads ask for. *)
Definition lookup_name (co_varnames : list string) (frame : Row)
    (name : string) : M PyVal :=
  if bool_decide (name ∈ co_varnames) then
    match frame !! name with
    | Some v => ret v
    | None => raise (UnboundLocalError name)
    end
  else if bool_decide (name ∈ module_globals) then ret (VGlobal name)
  else raise (NameError name).

(** [d[key]] *)
Definition subscript (d : Row) (key : string) : M PyVal :=
  match d !! key with
  | Some v => ret v
  | None => raise (KeyError key)
  end.

(** [d.pop(key)]: the value, and the dict without the key. *)
Definition dict_pop (d : Row) (key : string) : M (PyVal * Row) :=
  match d !! key with
  | Some v => ret (v, delete key d)
  | None => raise (KeyError key)
  end.

(** [d.get(key, default)] *)
Definition dict_get (d : Row) (key : string) (default : PyVal) : PyVal :=
  match d !! key with
  | Some v => v
  | None => default
  end.

(** [ns.name] on an argparse namespace. *)
Definition getattr (ns : Row) (name : string) : M PyVal :=
  match ns !! name with
  | Some v => ret v
  | None => raise (AttributeError name)
  end.

(** Truth value of a value in a condition.  An object of a library class is
    true unless its class says otherwise, which none of those used here as a
    condition does (connections, schema names). *)
Definition truthy (v : PyVal) : bool :=
  match v with
  | VNone => false
  | VBool b => b
  | VInt n => negb (n =? 0)
  | VFloat q => negb (Qeq_bool q 0)
  | VStr s => negb (String.eqb s "")
  | VList l => negb (Nat.eqb (length l) 0)
  | VDict d => negb (bool_decide (d = ∅))
  | _ => true
  end.

(** An object of a library, as opposed to a value of a built-in type. *)
Definition is_library_object (v : PyVal) : bool :=
  match v with
  | VGlobal _ | VAttr _ _ | VCall _ _ _ | VAdd _ _ => true
  | _ => false
  end.

(** The built-in types that [+] treats alike: text, integers (bool is a
    subclass of int), floats, lists; None and dict support no [+]. *)
Inductive Kind : Type := KText | KInt | KFloat | KList | KNoAdd.

Definition kind_of (v : PyVal) : Kind :=
  match v with
  | VStr _ => KText
  | VBool _ | VInt _ => KInt
  | VFloat _ => KFloat
  | VList _ => KList
  | _ => KNoAdd
  end.

(** The integer a bool or an int stands for in arithmetic. *)
Definition int_value (v : PyVal) : Z :=
  match v with
  | VInt n => n
  | VBool true => 1
  | _ => 0
  end.

(** [a + b].  When an operand is an object of a library the sum is up to
    the class of that object and is kept symbolic.  Otherwise text is
    concatenated with text and a list with a list, integers are added, a sum
    of numbers with a float among them is kept as the expression it is
    (float rounding is not modelled), and every other pair of operands
    raises TypeError: text with anything that is not text, None or a dict
    with anything. *)
Definition py_add (a b : PyVal) : M PyVal :=
  if is_library_object a || is_library_object b then ret (VAdd a b)
  else
    match a, b with
    | VStr x, VStr y => ret (VStr (x +:+ y))
    | VList x, VList y => ret (VList (x ++ y))
    | _, _ =>
        match kind_of a, kind_of b with
        | KInt, KInt => ret (VInt (int_value a + int_value b))
        | KInt, KFloat | KFloat, KInt | KFloat, KFloat => ret (VAdd a b)
        | _, _ => raise (TypeError "unsupported operand type(s) for +")
        end
    end.

(** A call into a library that reaches outside the process: recorded, and
    its result kept symbolic. *)
Definition call (callee : PyVal) (args : list PyVal) : M PyVal :=
  emit (EvCall callee args);; ret (VCall callee args ∅).

(** [obj.method(args)] *)
Definition call_method (obj : PyVal) (method : string) (args : list PyVal)
    : M PyVal :=
  call (VAttr obj method) args.

Definition log (level : string) (args : list PyVal) : M unit :=
  emit (EvLog level args).

(** [task.delay(recs)], where [batch] is what the record list holds. *)
Definition delay (task : string) (batch : list PyVal) : M unit :=
  emit (EvPublish task batch).

(** [len(l)] *)
Definition len {A} (l : list A) : Z := Z.of_nat (length l).

Definition print (items : list PyVal) : M unit := emit (EvPrint items).

(** [d[key]] on a value: only a dict can be subscripted by a string here. *)
Definition item (d : PyVal) (key : string) : M PyVal :=
  match d with
  | VDict d => subscript d key
  | _ => raise (TypeError "object is not subscriptable")
  end.

(** [fmt.format(args)] *)
Definition format (fmt : string) (args : list PyVal) : PyVal :=
  VCall (VAttr (VStr fmt) "format") args ∅.

(** Value of a decimal digit. *)
Definition digit_value (c : ascii) : option Z :=
  let n := Z.of_nat (nat_of_ascii c) in
  if (48 <=? n) && (n <=? 57) then Some (n - 48) else None.

(** Value of a run of decimal digits, most significant first, after the
    digits already read as [acc]. *)
Fixpoint digits_value (acc : Z) (s : string) : option Z :=
  match s with
  | EmptyString => Some acc
  | String c s' =>
      match digit_value c with
      | Some d => digits_value (10 * acc + d) s'
      | None => None
      end
  end.

(** Value of a non-empty run of decimal digits. *)
Definition parse_decimal (s : string) : option Z :=
  match s with
  | EmptyString => None
  | _ => digits_value 0 s
  end.

(** White space as int() skips it: space, and the characters from tab to
    carriage return. *)
Definition is_space (c : ascii) : bool :=
  let n := nat_of_ascii c in
  (n =? 32)%nat || ((9 <=? n)%nat && (n <=? 13)%nat).

(** [s] without the white space at its start. *)
Fixpoint lstrip (s : string) : string :=
  match s with
  | EmptyString => EmptyString
  | String c s' => if is_space c then lstrip s' else s
  end.

(** [s] without the white space at its end. *)
Fixpoint rstrip (s : string) : string :=
  match s with
  | EmptyString => EmptyString
  | String c s' =>
      match rstrip s' with
      | EmptyString => if is_space c then EmptyString else String c EmptyString
      | rest => String c rest
      end
  end.

(** [int(text)] in base 10 (Python 2, where the text is a byte string):
    white space around the number is skipped, the number is an optional
    sign followed directly by one or more decimal digits, and nothing else
    is accepted. *)
Definition parse_int (s : string) : option Z :=
  match rstrip (lstrip s) with
  | String "-" digits => Z.opp <$> parse_decimal digits
  | String "+" digits => parse_decimal digits
  | digits => parse_decimal digits
  end.

(** [int(v)]: an integer is itself, a bool is 0 or 1, a float is cut
    towards zero, text is read by [parse_int] (ValueError when it is not a
    number); None, lists and dicts raise TypeError.  Objects of a library are
    taken not to convert; run.py only applies int() to args.batchSize, which
    argparse sets to the default 1 or to the text given on the command
    line. *)
Definition py_int (v : PyVal) : M Z :=
  match v with
  | VInt n => ret n
  | VBool b => ret (if b then 1 else 0)
  | VFloat q => ret (Z.quot (Qnum q) (Z.pos (Qden q)))
  | VStr s =>
      match parse_int s with
      | Some n => ret n
      | None => raise (ValueError "invalid literal for int() with base 10")
      end
  | _ => raise (TypeError "int() argument must be a string or a number")
  end.

(** [s.upper()] on ASCII text. *)
Definition upper_ascii (c : ascii) : ascii :=
  let n := nat_of_ascii c in
  if (97 <=? n)%nat && (n <=? 122)%nat then ascii_of_nat (n - 32) else c.

Fixpoint upper (s : string) : string :=
  match s with
  | EmptyString => EmptyString
  | String c s' => String (upper_ascii c) (upper s')
  end.

(** [m] with the event [ev] in front of its trace. *)
Definition after {A} (ev : Event) (m : M A) : M A := (m.1, ev :: m.2).

(** The batches published in a trace, in order. *)
Definition published (tr : list Event) : list (list PyVal) :=
  omap (fun ev => match ev with EvPublish _ b => Some b | _ => None end) tr.

(** The library calls in a trace. *)
Definition calls (tr : list Event) : list (PyVal * list PyVal) :=
  omap (fun ev => match ev with EvCall c a => Some (c, a) | _ => None end) tr.

(** The name a library call goes by: the method or function name. *)
Definition callee_name (callee : PyVal) : string :=
  match callee with
  | VAttr _ method => method
  | VGlobal name => name
  | _ => ""
  end.

(** The names of the library calls in a trace, in order. *)
Definition called (tr : list Event) : list string :=
  (fun c => callee_name c.1) <$> calls tr.

(** The calls that reach the relational store: every library call except
    create_engine, which builds an engine object without connecting. *)
Definition store_calls (tr : list Event) : list string :=
  List.filter (fun name => negb (String.eqb name "create_engine")) (called tr).

End Py.

(* ===================================================================== *)
(** ** run.py *)
(* ===================================================================== *)

Module Run.
Import Py.

(** The world outside the process, as far as run.py reads from it. *)
Record Env : Type := {
  (** the rows [connection.execute(query)] yields, in cursor order *)
  rows_of : PyVal -> list Row;
  (** [nonbib.get_row_view(bibcode)]; [None] is Python's None *)
  get_row_view : PyVal -> option Row;
  (** [m.read(bibcode)]; [None] is Python's None *)
  read : PyVal -> option Row;
  (** [nonbib.NonBib.all_types] *)
  all_types : list string;
  (** truth value of a file reader object, for [if r:] *)
  reader_truthy : PyVal -> bool
}.

(** The record constructors of adsmsg, called with the keyword arguments
    [kw], and [rec._data].  The message classes are not modelled apart:
    [recs = MetricsRecordList(); recs.metrics_records.extend(tmp)] (and the
    same for NonBibRecordList) fills a new message with a copy of [tmp], and
    below [recs] is the list of records the message holds. *)
Definition NonBibRecord (kw : Row) : PyVal := VCall (VGlobal "NonBibRecord") [] kw.
Definition MetricsRecord (kw : Row) : PyVal := VCall (VGlobal "MetricsRecord") [] kw.
Definition _data (rec : PyVal) : PyVal := VAttr rec "_data".

(** [select([table])] *)
Definition select (table : PyVal) : PyVal :=
  VCall (VGlobal "select") [VList [table]] ∅.

(** *** nonbib_to_master_pipeline (run.py 48-70) *)

Definition nonbib_to_master_pipeline_varnames : list string :=
  ["schema"; "batch_size"; "nonbib"; "connection"; "s"; "results"; "tmp";
   "current_row"; "rec"; "recs"].

Definition nonbib_to_master_pipeline (env : Env) (schema : PyVal)
    (batch_size : Z) : M unit :=
  let frame : Row := {[ "schema" := schema; "batch_size" := VInt batch_size ]} in
  (* nonbib = nonbib.NonBib(schema): the right-hand side is evaluated first *)
  nonbib_rhs ← lookup_name nonbib_to_master_pipeline_varnames frame "nonbib";
  nonbib ← call (VAttr nonbib_rhs "NonBib") [schema];
  connection ← call_method (VAttr nonbib "engine") "connect" [];
  let s := select (VAttr nonbib "table") in
  call_method connection "execute" [s];;
  tmp ← for_each (rows_of env s) [] (fun tmp current_row =>
    let rec := NonBibRecord current_row in
    let tmp := tmp ++ [_data rec] in
    if len tmp >=? batch_size then
      let recs := tmp in
      log "debug" [VStr "Calling 'app.forward_message' with '%s' items";
                   VInt (len recs)];;
      delay "task_output_results" recs;;
      ret []
    else ret tmp);
  if len tmp >? 0 then
    let recs := tmp in
    log "debug" [VStr "Calling 'app.forward_message' with final '%s' items";
                 VInt (len recs)];;
    delay "task_output_results" recs
  else ret tt.

(** *** nonbib_delta_to_master_pipeline (run.py 74-100) *)

Definition nonbib_delta_to_master_pipeline_varnames : list string :=
  ["schema"; "batch_size"; "nonbib"; "connection"; "delta_table"; "s";
   "results"; "tmp"; "current_delta"; "row"; "rec"; "recs"].

Definition nonbib_delta_to_master_pipeline (env : Env) (schema : PyVal)
    (batch_size : Z) : M unit :=
  let frame : Row := {[ "schema" := schema; "batch_size" := VInt batch_size ]} in
  nonbib_rhs ← lookup_name nonbib_delta_to_master_pipeline_varnames frame "nonbib";
  nonbib ← call (VAttr nonbib_rhs "NonBib") [schema];
  connection ← call_method (VAttr nonbib "engine") "connect" [];
  delta_table ← call_method nonbib "get_delta_table" [];
  let s := select delta_table in
  call_method connection "execute" [s];;
  tmp ← for_each (rows_of env s) [] (fun tmp current_delta =>
    bibcode ← subscript current_delta "bibcode";
    call_method nonbib "get_row_view" [bibcode];;
    row ← match get_row_view env bibcode with
          | Some row => ret row
          | None => raise (TypeError "'NoneType' object is not iterable")
          end;
    let rec := NonBibRecord row in
    let tmp := tmp ++ [_data rec] in
    if len tmp >=? batch_size then
      let recs := tmp in
      log "debug" [VStr "Calling 'app.forward_message' with '%s' items";
                   VInt (len recs)];;
      delay "task_output_results" recs;;
      ret []
    else ret tmp);
  if len tmp >? 0 then
    let recs := tmp in
    log "debug" [VStr "Calling 'app.forward_message' with final '%s' items";
                 VInt (len recs)];;
    delay "task_output_results" recs
  else ret tt.

(** *** metrics_to_master_pipeline (run.py 103-127) *)

Definition metrics_to_master_pipeline_varnames : list string :=
  ["schema"; "batch_size"; "m"; "connection"; "s"; "results"; "tmp";
   "current_row"; "rec"; "recs"].

(** The body of the loop at lines 110-121, from the batch collected so far
    and the next row to the batch carried into the next iteration. *)
Definition metrics_to_master_pipeline_step (batch_size : Z)
    (tmp : list PyVal) (current_row : Row) : M (list PyVal) :=
  '(_, current_row) ← dict_pop current_row "id";
  log "debug" [VStr "Will forward this metrics record: %s"; VDict current_row];;
  let rec := MetricsRecord current_row in
  let tmp := tmp ++ [_data rec] in
  if len tmp >=? batch_size then
    let recs := tmp in
    log "debug" [VStr "Calling metrics 'app.forward_message' with '%s' records";
                 VInt (len recs)];;
    delay "task_output_metrics" recs;;
    ret []
  else ret tmp.

(** Lines 123-127: what is left after the loop. *)
Definition metrics_to_master_pipeline_flush (tmp : list PyVal) : M unit :=
  if len tmp >? 0 then
    let recs := tmp in
    log "debug" [VStr "Calling metrics 'app.forward_message' with final '%s' records";
                 VInt (len recs)];;
    delay "task_output_metrics" recs
  else ret tt.

Definition metrics_to_master_pipeline (env : Env) (schema : PyVal)
    (batch_size : Z) : M unit :=
  let frame : Row := {[ "schema" := schema; "batch_size" := VInt batch_size ]} in
  metrics ← lookup_name metrics_to_master_pipeline_varnames frame "metrics";
  m ← call (VAttr metrics "Metrics") [schema];
  connection ← call_method (VAttr m "engine") "connect" [];
  let s := select (VAttr m "table") in
  call_method connection "execute" [s];;
  tmp ← for_each (rows_of env s) [] (metrics_to_master_pipeline_step batch_size);
  metrics_to_master_pipeline_flush tmp.

(** *** metrics_delta_to_master_pipeline (run.py 131-159) *)

Definition metrics_delta_to_master_pipeline_varnames : list string :=
  ["metrics_schema"; "nonbib_schema"; "batch_size"; "m"; "nonbib";
   "connection"; "delta_table"; "s"; "results"; "tmp"; "current_delta";
   "row"; "rec"; "recs"].

Definition metrics_delta_to_master_pipeline (env : Env)
    (metrics_schema nonbib_schema : PyVal) (batch_size : Z) : M unit :=
  let names := metrics_delta_to_master_pipeline_varnames in
  let frame : Row :=
    {[ "metrics_schema" := metrics_schema; "nonbib_schema" := nonbib_schema;
       "batch_size" := VInt batch_size ]} in
  metrics ← lookup_name names frame "metrics";
  m ← call (VAttr metrics "Metrics") [metrics_schema];
  let frame := <["m" := m]> frame in
  nonbib_rhs ← lookup_name names frame "nonbib";
  nonbib ← call (VAttr nonbib_rhs "NonBib") [nonbib_schema];
  connection ← call_method (VAttr nonbib "engine") "connect" [];
  delta_table ← call_method nonbib "get_delta_table" [];
  let s := select delta_table in
  call_method connection "execute" [s];;
  (* the loop carries [tmp] and the frame, for [rec] and for [recs] (read at
     line 148, assigned at line 149) *)
  '(tmp, frame) ← for_each (rows_of env s) ([], frame) (fun '(tmp, frame) current_delta =>
    bibcode ← subscript current_delta "bibcode";
    call_method m "read" [bibcode];;
    row ← match read env bibcode with
          | Some row => ret row
          | None => raise (AttributeError "pop")
          end;
    '(_, row) ← dict_pop row "id";
    let rec := MetricsRecord row in
    let frame := <["rec" := rec]> frame in
    let tmp := tmp ++ [_data rec] in
    recs ← lookup_name names frame "recs";
    let metrics_records := match recs with VList l => l | _ => [] end in
    if len metrics_records >=? batch_size then
      let recs := tmp in
      log "debug" [VStr "Calling metrics 'app.forward_message' with '%s' messages";
                   VInt (len recs)];;
      delay "task_output_metrics" recs;;
      ret ([], <["recs" := VList recs]> frame)
    else ret (tmp, frame));
  if len tmp >? 0 then
    let recs := tmp in
    rec ← lookup_name names frame "rec";
    log "debug" [VStr "Calling metrics 'app.forward_message' with final '%s'";
                 VCall (VGlobal "str") [rec] ∅];;
    delay "task_output_metrics" recs
  else ret tt.

(** *** load_column_files (run.py 21-45) *)

(** The body of the loop (lines 30-41) for the type [t], with the
    variables of the function it reads. *)
Definition load_type (env : Env) (config sql_sync raw_conn cur : PyVal)
    (_ : unit) (t : string) : M unit :=
  schema_dot ← py_add (VAttr sql_sync "schema") (VStr ".");
  table_name ← py_add schema_dot (VStr t);
  log "info" [format "processing {}" [table_name]];;
  data_path ← item config "DATA_PATH";
  file ← item config (upper t);
  filename ← py_add data_path file;
  r ← (if String.eqb t "canonical" then
         call (VAttr (VGlobal "reader") "BibcodeFileReader") [filename]
       else if String.eqb t "refereed" then
         call (VAttr (VGlobal "reader") "RefereedFileReader") [filename]
       else
         call (VAttr (VGlobal "reader") "StandardFileReader") [VStr t; filename]);
  if reader_truthy env r then
    call_method cur "copy_from" [r; table_name];;
    call_method raw_conn "commit" [];;
    ret tt
  else ret tt.

(** Called with the list of its positional arguments: the function has four
    parameters and no defaults, so any other number of arguments is a
    TypeError before the body starts. *)
Definition load_column_files (env : Env) (args : list PyVal) : M unit :=
  match args with
  | [config; nonbib_db_engine; nonbib_db_conn; sql_sync] =>
      raw_conn ← call_method nonbib_db_engine "raw_connection" [];
      cur ← call_method raw_conn "cursor" [];
      for_each (all_types env) tt (load_type env config sql_sync raw_conn cur);;
      call_method cur "close" [];;
      call_method raw_conn "close" [];;
      call_method sql_sync "create_joined_rows" [nonbib_db_conn];;
      ret tt
  | _ => raise (TypeError "load_column_files() takes exactly 4 arguments")
  end.

(** *** diagnose_nonbib and diagnose_metrics (run.py 163-212) *)

Definition diagnose_nonbib_test_data : Row :=
  list_to_map [
     ("bibcode", VStr "2003ASPC..295..361M");
     ("id", VInt 6473150);
     ("authors", VList [VStr "Mcdonald, S"; VStr "Buddha, S"]);
     ("refereed", VBool false);
     ("simbad_objects", VList []);
     ("grants", VList [VStr "g"]);
     ("citations", VList []);
     ("boost", VFloat (11 # 100));
     ("citation_count", VInt 0);
     ("read_count", VInt 2);
     ("readers", VList [VStr "a"; VStr "b"]);
     ("downloads", VList (VInt <$> [0;0;0;0;0;0;0;0;0;0;0;1;2;1;0;0;1;0;0;0;1;2]));
     ("reference", VList [VStr "c"; VStr "d"]);
     ("reads", VList (VInt <$> [0;0;0;0;0;0;0;0;1;0;4;2;5;1;0;0;1;0;0;2;4;5])) ].

Definition diagnose_metrics_test_data : Row :=
  list_to_map [
     ("bibcode", VStr "2003ASPC..295..361M");
     ("refereed", VBool false);
     ("rn_citations", VInt 0);
     ("rn_citation_data", VList []);
     ("downloads", VList (VInt <$> [0;0;0;0;0;0;0;0;0;0;0;1;2;1;0;0;1;0;0;0;1;2]));
     ("reads", VList (VInt <$> [0;0;0;0;0;0;0;0;1;0;4;2;5;1;0;0;1;0;0;2;4;5]));
     ("an_citations", VInt 0);
     ("refereed_citation_num", VInt 0);
     ("citation_num", VInt 0);
     ("reference_num", VInt 0);
     ("citations", VList []);
     ("refereed_citations", VList []);
     ("author_num", VInt 2);
     ("an_refereed_citations", VInt 0) ].

(** The print statements both functions share (lines 178-184, 205-211);
    [config] is the module-level dict. *)
Definition print_queue_configuration (config : Row) : M unit :=
  v ← subscript config "CELERY_BROKER";
  print [VStr "using CELERY_BROKER"; v];;
  v ← subscript config "CELERY_DEFAULT_EXCHANGE";
  print [VStr "  CELERY_DEFAULT_EXCHANGE"; v];;
  v ← subscript config "CELERY_DEFAULT_EXCHANGE_TYPE";
  print [VStr "  CELERY_DEFAULT_EXCHANGE_TYPE"; v];;
  v ← subscript config "OUTPUT_CELERY_BROKER";
  print [VStr "  OUTPUT_CELERY_BROKER"; v];;
  v ← subscript config "OUTPUT_TASKNAME";
  print [VStr "  OUTPUT_TASKNAME"; v];;
  v ← subscript config "INGEST_DATABASE";
  print [VStr "this action did not use ingest database (configured at"; v; VStr ")"];;
  v ← subscript config "METRICS_DATABASE";
  print [VStr "  or the metrics database (at"; v; VStr ")"].

Definition diagnose_nonbib (config : Row) : M unit :=
  let test_data := diagnose_nonbib_test_data in
  let rec := NonBibRecord test_data in
  let recs := [_data rec] in
  bibcode ← subscript test_data "bibcode";
  print [VStr "sending nonbib data for bibocde"; bibcode; VStr "to master pipeline"];;
  print_queue_configuration config;;
  delay "task_output_results" recs.

Definition diagnose_metrics (config : Row) : M unit :=
  let test_data := diagnose_metrics_test_data in
  let rec := MetricsRecord test_data in
  let recs := [_data rec] in
  bibcode ← subscript test_data "bibcode";
  print [VStr "sending metrics data for bibocde"; bibcode; VStr "to master pipeline"];;
  print_queue_configuration config;;
  delay "task_output_metrics" recs.

(** *** main (run.py 217-382) *)

(** The command line after argparse: every option is text when given, and
    its default otherwise (None for --fileType, the integer 1 for
    --batchSize). *)
Record Args : Type := {
  fileType : PyVal;
  rowViewSchemaName : string;
  metricsSchemaName : string;
  rowViewBaselineSchemaName : string;
  batchSize : PyVal;
  diagnose : bool;
  command : string
}.

Definition default_args (cmd : string) : Args :=
  {| fileType := VNone;
     rowViewSchemaName := "nonbib";
     metricsSchemaName := "metrics";
     rowViewBaselineSchemaName := "nonbibstaging";
     batchSize := VInt 1;
     diagnose := false;
     command := cmd |}.

(** The namespace [parser.parse_args()] returns: one attribute per
    add_argument call (lines 219-234). *)
Definition parse_args (a : Args) : Row :=
  {[ "fileType" := fileType a;
     "rowViewSchemaName" := VStr (rowViewSchemaName a);
     "metricsSchemaName" := VStr (metricsSchemaName a);
     "rowViewBaselineSchemaName" := VStr (rowViewBaselineSchemaName a);
     "batchSize" := batchSize a;
     "diagnose" := VBool (diagnose a);
     "command" := VStr (command a) ]}.

(** [nonbib.NonBib(...)] and [metrics.Metrics(...)] in main, where both
    names are the imported modules. *)
Definition NonBib (args : list PyVal) : M PyVal :=
  call (VAttr (VGlobal "nonbib") "NonBib") args.
Definition Metrics (args : list PyVal) : M PyVal :=
  call (VAttr (VGlobal "metrics") "Metrics") args.

(** A call of nonbib_delta_to_master_pipeline with the positional arguments
    [args]; its parameters are (schema, batch_size=1). *)
Definition apply_nonbib_delta_to_master_pipeline (env : Env)
    (args : list PyVal) : M unit :=
  match args with
  | [schema] => nonbib_delta_to_master_pipeline env schema 1
  | [schema; VInt batch_size] => nonbib_delta_to_master_pipeline env schema batch_size
  | _ => raise (TypeError "nonbib_delta_to_master_pipeline() takes at most 2 arguments")
  end.

(** One arm of the if/elif chain: the command it compares [args.command]
    with, the attributes of [args] that follow it in the [and] chain, and
    the body. *)
Record Arm : Type := {
  arm_command : string;
  arm_required : list string;
  arm_body : M unit
}.

(** [args.a1 and args.a2 and ...], left to right, stopping at the first
    false one. *)
Fixpoint all_truthy (args : Row) (attrs : list string) : M bool :=
  match attrs with
  | [] => ret true
  | a :: attrs' =>
      v ← getattr args a;
      if truthy v then all_truthy args attrs' else ret false
  end.

(** [args.command == cmd and args.a1 and ...] *)
Definition arm_test (args : Row) (arm : Arm) : M bool :=
  c ← getattr args "command";
  match c with
  | VStr c => if String.eqb c (arm_command arm)
              then all_truthy args (arm_required arm)
              else ret false
  | _ => ret false
  end.

(** The if/elif/else chain. *)
Fixpoint dispatch (args : Row) (arms : list Arm) (orelse : M unit) : M unit :=
  match arms with
  | [] => orelse
  | arm :: arms' =>
      arm_test args arm ≫= fun t : bool =>
      if t then arm_body arm else dispatch args arms' orelse
  end.

(** [{'FROM_SCRATCH': False, 'COPY_FROM_PROGRAM': False}] *)
Definition incremental_options : PyVal :=
  VDict {[ "FROM_SCRATCH" := VBool false; "COPY_FROM_PROGRAM" := VBool false ]}.

(** The arms of the chain at lines 253-371, in source order.  [config] is
    the module-level dict; the other arguments are main's local variables. *)
Definition arms (env : Env) (config : Row) (args : Row)
    (nonbib_db_engine nonbib_db_conn metrics_db_engine metrics_db_conn : PyVal)
    : list Arm :=
  [ {| arm_command := "help"; arm_required := ["diagnose"];
       arm_body := diagnose_nonbib config;; diagnose_metrics config |};

    {| arm_command := "createIngestTables"; arm_required := [];
       arm_body :=
         schema ← getattr args "rowViewSchemaName";
         sql_sync ← NonBib [schema];
         call_method sql_sync "create_column_tables" [nonbib_db_engine];; ret tt |};

    {| arm_command := "dropIngestTables"; arm_required := [];
       arm_body :=
         schema ← getattr args "rowViewSchemaName";
         sql_sync ← NonBib [schema];
         call_method sql_sync "drop_column_tables" [nonbib_db_engine];; ret tt |};

    {| arm_command := "createJoinedRows"; arm_required := [];
       arm_body :=
         schema ← getattr args "rowViewSchemaName";
         sql_sync ← NonBib [schema; VDict config];
         call_method sql_sync "create_joined_rows" [nonbib_db_conn];; ret tt |};

    {| arm_command := "createMetricsTable"; arm_required := ["metricsSchemaName"];
       arm_body :=
         schema ← getattr args "metricsSchemaName";
         m ← Metrics [schema];
         call_method m "create_metrics_table" [metrics_db_engine];; ret tt |};

    {| arm_command := "dropMetricsTable"; arm_required := ["metricsSchemaName"];
       arm_body :=
         schema ← getattr args "metricsSchemaName";
         m ← Metrics [schema];
         call_method m "drop_metrics_table" [metrics_db_engine];; ret tt |};

    {| arm_command := "populateMetricsTable";
       arm_required := ["rowViewSchemaName"; "metricsSchemaName"];
       arm_body :=
         m ← Metrics [];
         schema ← getattr args "rowViewSchemaName";
         call_method m "update_metrics_all" [metrics_db_conn; nonbib_db_conn; schema];;
         ret tt |};

    {| arm_command := "populateMetricsTableDelta";
       arm_required := ["rowViewSchemaName"; "metricsSchemaName"];
       arm_body :=
         schema ← getattr args "metricsSchemaName";
         m ← Metrics [schema; incremental_options];
         schema ← getattr args "rowViewSchemaName";
         call_method m "update_metrics_changed" [schema];; ret tt |};

    {| arm_command := "renameSchema";
       arm_required := ["rowViewSchemaName"; "rowViewBaselineSchemaName"];
       arm_body :=
         schema ← getattr args "rowViewSchemaName";
         sql_sync ← NonBib [schema];
         baseline ← getattr args "rowViewBaselineSchemaName";
         call_method sql_sync "rename_schema" [nonbib_db_conn; baseline];; ret tt |};

    {| arm_command := "createDeltaRows";
       arm_required := ["rowViewSchemaName"; "rowViewBaselineSchemaName"];
       arm_body :=
         schema ← getattr args "rowViewSchemaName";
         sql_sync ← NonBib [schema];
         baseline ← getattr args "rowViewBaselineSchemaName";
         call_method sql_sync "create_delta_rows" [nonbib_db_conn; baseline];; ret tt |};

    {| arm_command := "createNewBibcodes";
       arm_required := ["rowViewSchemaName"; "rowViewBaselineSchemaName"];
       arm_body :=
         schema ← getattr args "rowViewSchemaName";
         sql_sync ← NonBib [schema];
         baseline ← getattr args "rowViewBaselineSchemaName";
         call_method sql_sync "build_new_bibcodes" [nonbib_db_conn; baseline];; ret tt |};

    {| arm_command := "logDeltaReasons";
       arm_required := ["rowViewSchemaName"; "rowViewBaselineSchemaName"];
       arm_body :=
         schema ← getattr args "rowViewSchemaName";
         sql_sync ← NonBib [schema];
         baseline ← getattr args "rowViewBaselineSchemaName";
         call_method sql_sync "log_delta_reasons" [nonbib_db_conn; baseline];; ret tt |};

    {| arm_command := "runRowViewPipeline"; arm_required := ["rowViewSchemaName"];
       arm_body :=
         schema ← getattr args "rowViewSchemaName";
         sql_sync ← NonBib [schema];
         call_method sql_sync "drop_column_tables" [nonbib_db_engine];;
         call_method sql_sync "create_column_tables" [nonbib_db_engine];;
         load_column_files env [VDict config; nonbib_db_engine; nonbib_db_conn; sql_sync] |};

    {| arm_command := "runMetricsPipeline";
       arm_required := ["rowViewSchemaName"; "metricsSchemaName"];
       arm_body :=
         schema ← getattr args "metricsSchemaName";
         m ← Metrics [schema];
         call_method m "drop_metrics_table" [metrics_db_engine];;
         call_method m "create_metrics_table" [metrics_db_engine];;
         schema ← getattr args "rowViewSchemaName";
         call_method m "update_metrics_all" [metrics_db_conn; nonbib_db_conn; schema];;
         ret tt |};

    {| arm_command := "runRowViewPipelineDelta";
       arm_required := ["rowViewSchemaName"; "rowViewBaselineSchemaName"];
       arm_body :=
         schema ← getattr args "rowViewSchemaName";
         sql_sync ← NonBib [schema];
         call_method sql_sync "drop_column_tables" [nonbib_db_engine];;
         call_method sql_sync "create_column_tables" [nonbib_db_engine];;
         load_column_files env [VDict config; nonbib_db_engine; nonbib_db_conn; sql_sync];;
         baseline ← getattr args "rowViewBaselineSchemaName";
         call_method sql_sync "create_delta_rows" [nonbib_db_conn; baseline];;
         baseline ← getattr args "rowViewBaselineSchemaName";
         call_method sql_sync "log_delta_reasons" [nonbib_db_conn; baseline];; ret tt |};

    {| arm_command := "runMetricsPipelineDelta";
       arm_required := ["rowViewSchemaName"; "metricsSchemaName"];
       arm_body :=
         schema ← getattr args "metricsSchemaName";
         m ← Metrics [schema];
         schema ← getattr args "rowViewSchemaName";
         call_method m "update_metrics_changed" [metrics_db_conn; nonbib_db_conn; schema];;
         ret tt |};

    {| arm_command := "runPipelines";
       arm_required := ["rowViewSchemaName"; "metricsSchemaName"];
       arm_body :=
         schema ← getattr args "rowViewSchemaNameg";
         sql_sync ← NonBib [schema];
         call_method sql_sync "drop_column_tables" [nonbib_db_engine];;
         call_method sql_sync "create_column_tables" [nonbib_db_engine];;
         load_column_files env [VDict config; nonbib_db_engine; nonbib_db_conn; sql_sync];;
         schema ← getattr args "metricsSchemaName";
         m ← Metrics [schema];
         call_method m "drop_metrics_table" [metrics_db_engine];;
         call_method m "create_metrics_table" [metrics_db_engine];;
         schema ← getattr args "rowViewSchemaName";
         call_method m "update_metrics_all" [metrics_db_conn; nonbib_db_conn; schema];;
         ret tt |};

    {| arm_command := "runPipelinesDelta";
       arm_required := ["rowViewSchemaName"; "metricsSchemaName";
                        "rowViewBaselineSchemaName"];
       arm_body :=
         baseline ← getattr args "rowViewBaselineSchemaName";
         baseline_sql_sync ← NonBib [baseline];
         call_method baseline_sql_sync "drop_column_tables" [];;
         schema ← getattr args "rowViewSchemaName";
         sql_sync ← NonBib [schema];
         baseline ← getattr args "rowViewBaselineSchemaName";
         call_method sql_sync "rename_schema" [baseline];;
         schema ← getattr args "rowViewSchemaName";
         sql_sync ← NonBib [schema];
         call_method sql_sync "create_column_tables" [nonbib_db_engine];;
         load_column_files env [VDict config; sql_sync];;
         baseline ← getattr args "rowViewBaselineSchemaName";
         call_method sql_sync "create_delta_rows" [baseline];;
         baseline ← getattr args "rowViewBaselineSchemaName";
         call_method sql_sync "log_delta_reasons" [baseline];;
         schema ← getattr args "metricsSchemaName";
         m ← Metrics [schema; incremental_options];
         schema ← getattr args "rowViewSchemaName";
         call_method m "update_metrics_changed" [schema];; ret tt |};

    {| arm_command := "nonbibToMasterPipeline"; arm_required := ["diagnose"];
       arm_body := diagnose_nonbib config |};

    {| arm_command := "nonbibToMasterPipeline"; arm_required := [];
       arm_body :=
         schema ← getattr args "rowViewSchemaName";
         size ← getattr args "batchSize";
         batch_size ← py_int size;
         nonbib_to_master_pipeline env schema batch_size |};

    {| arm_command := "nonbibDeltaToMasterPipeline"; arm_required := [];
       arm_body :=
         d ← getattr args "diagnose";
         print [VStr "diagnose = "; d];;
         schema ← getattr args "rowViewSchemaName";
         size ← getattr args "batchSize";
         batch_size ← py_int size;
         nonbib_delta_to_master_pipeline env schema batch_size |};

    {| arm_command := "metricsToMasterPipeline"; arm_required := ["diagnose"];
       arm_body := diagnose_metrics config |};

    {| arm_command := "metricsToMasterPipeline"; arm_required := [];
       arm_body :=
         schema ← getattr args "metricsSchemaName";
         size ← getattr args "batchSize";
         batch_size ← py_int size;
         metrics_to_master_pipeline env schema batch_size |};

    {| arm_command := "metricsDeltaToMasterPipeline"; arm_required := [];
       arm_body :=
         metrics_schema ← getattr args "metricsSchemaName";
         schema ← getattr args "rowViewSchemaName";
         size ← getattr args "batchSize";
         batch_size ← py_int size;
         apply_nonbib_delta_to_master_pipeline env
           [metrics_schema; schema; VInt batch_size] |} ].

(** Lines 373-377: the else arm. *)
Definition illegal_command (args : Row) : M unit :=
  v ← getattr args "command";
  print [VStr "app.py: illegal command or missing argument, command = "; v];;
  v ← getattr args "rowViewSchemaName";
  print [VStr "  row view schema name = "; v];;
  v ← getattr args "rowViewBaselineSchemaName";
  print [VStr "  row view baseline schema name = "; v];;
  v ← getattr args "metricsSchemaName";
  print [VStr "  metrics schema name = "; v].

Definition default_database : PyVal :=
  VStr "postgresql://postgres@localhost:5432/postgres".

(** [loaded] is what load_config() returns; the module-level [config] is
    empty before [config.update], so it equals [loaded] afterwards.
    setup_logging only builds the logger. *)
Definition main (env : Env) (loaded : Row) (a : Args) : M unit :=
  let args := parse_args a in
  let config := loaded in
  command ← getattr args "command";
  file_type ← getattr args "fileType";
  log "info" [format "starting AdsDataSqlSync.app with {}, {}" [command; file_type]];;
  let nonbib_connection_string := dict_get config "INGEST_DATABASE" default_database in
  nonbib_db_engine ← call (VGlobal "create_engine") [nonbib_connection_string];
  nonbib_db_conn ← call_method nonbib_db_engine "connect" [];
  let metrics_connection_string := dict_get config "METRICS_DATABASE" default_database in
  metrics_db_engine ← call (VGlobal "create_engine") [metrics_connection_string];
  metrics_db_conn ← call_method metrics_db_engine "connect" [];
  dispatch args
    (arms env config args nonbib_db_engine nonbib_db_conn
          metrics_db_engine metrics_db_conn)
    (illegal_command args);;
  (if truthy nonbib_db_conn
   then call_method nonbib_db_conn "close" [];; ret tt
   else ret tt);;
  command ← getattr args "command";
  file_type ← getattr args "fileType";
  log "info" [format "completed columnFileIngest with {}, {}" [command; file_type]].

(** *** Vocabulary for the statements about run.py *)

(** What the loop of metrics_to_master_pipeline appends to [tmp] for a row
    (lines 111-115). *)
Definition forwarded (row : Row) : PyVal :=
  _data (MetricsRecord (delete "id" row)).

Definition has_id (row : Row) : Prop := is_Some (row !! "id").

(** The rows metrics_to_master_pipeline iterates over: the result of
    executing [select([m.table])] for [m = metrics.Metrics(schema)]. *)
Definition metrics_table_rows (env : Env) (schema : PyVal) : list Row :=
  rows_of env
    (select (VAttr (VCall (VAttr (VGlobal "metrics") "Metrics") [schema] ∅) "table")).

(** A published record that comes from one of [rows]. *)
Definition from_row (rows : list Row) (r : PyVal) : Prop :=
  exists row, row ∈ rows /\ has_id row /\ r = forwarded row.

(** The attributes of the namespace. *)
Definition attribute_names : list string :=
  ["fileType"; "rowViewSchemaName"; "metricsSchemaName";
   "rowViewBaselineSchemaName"; "batchSize"; "diagnose"; "command"].

(** The conditions of the if/elif chain of main, in source order: the
    command, and the attributes that have to be true with it. *)
Definition requirements : list (string * list string) :=
  [ ("help", ["diagnose"]);
    ("createIngestTables", []);
    ("dropIngestTables", []);
    ("createJoinedRows", []);
    ("createMetricsTable", ["metricsSchemaName"]);
    ("dropMetricsTable", ["metricsSchemaName"]);
    ("populateMetricsTable", ["rowViewSchemaName"; "metricsSchemaName"]);
    ("populateMetricsTableDelta", ["rowViewSchemaName"; "metricsSchemaName"]);
    ("renameSchema", ["rowViewSchemaName"; "rowViewBaselineSchemaName"]);
    ("createDeltaRows", ["rowViewSchemaName"; "rowViewBaselineSchemaName"]);
    ("createNewBibcodes", ["rowViewSchemaName"; "rowViewBaselineSchemaName"]);
    ("logDeltaReasons", ["rowViewSchemaName"; "rowViewBaselineSchemaName"]);
    ("runRowViewPipeline", ["rowViewSchemaName"]);
    ("runMetricsPipeline", ["rowViewSchemaName"; "metricsSchemaName"]);
    ("runRowViewPipelineDelta", ["rowViewSchemaName"; "rowViewBaselineSchemaName"]);
    ("runMetricsPipelineDelta", ["rowViewSchemaName"; "metricsSchemaName"]);
    ("runPipelines", ["rowViewSchemaName"; "metricsSchemaName"]);
    ("runPipelinesDelta",
       ["rowViewSchemaName"; "metricsSchemaName"; "rowViewBaselineSchemaName"]);
    ("nonbibToMasterPipeline", ["diagnose"]);
    ("nonbibToMasterPipeline", []);
    ("nonbibDeltaToMasterPipeline", []);
    ("metricsToMasterPipeline", ["diagnose"]);
    ("metricsToMasterPipeline", []);
    ("metricsDeltaToMasterPipeline", []) ].

Definition arm_head (arm : Arm) : string * list string :=
  (arm_command arm, arm_required arm).

(** Truth value of the attribute [x] of the parsed command line. *)
Definition attr_truthy (a : Args) (x : string) : bool :=
  match parse_args a !! x with
  | Some v => truthy v
  | None => false
  end.

(** The command line satisfies the condition [h]. *)
Definition selects (a : Args) (h : string * list string) : bool :=
  String.eqb (command a) h.1 && forallb (attr_truthy a) h.2.

(** An unrecognized command, or a recognized one without the arguments its
    condition asks for: no condition of the chain holds. *)
Definition illegal_invocation (a : Args) : bool :=
  forallb (fun h => negb (selects a h)) requirements.

(** Everything main does on an illegal invocation, in order. *)
Definition illegal_invocation_trace (loaded : Row) (a : Args) : list Event :=
  let ingest := dict_get loaded "INGEST_DATABASE" default_database in
  let metrics := dict_get loaded "METRICS_DATABASE" default_database in
  let nonbib_db_engine := VCall (VGlobal "create_engine") [ingest] ∅ in
  let metrics_db_engine := VCall (VGlobal "create_engine") [metrics] ∅ in
  let nonbib_db_conn := VCall (VAttr nonbib_db_engine "connect") [] ∅ in
  [ EvLog "info" [format "starting AdsDataSqlSync.app with {}, {}"
                    [VStr (command a); fileType a]];
    EvCall (VGlobal "create_engine") [ingest];
    EvCall (VAttr nonbib_db_engine "connect") [];
    EvCall (VGlobal "create_engine") [metrics];
    EvCall (VAttr metrics_db_engine "connect") [];
    EvPrint [VStr "app.py: illegal command or missing argument, command = ";
             VStr (command a)];
    EvPrint [VStr "  row view schema name = "; VStr (rowViewSchemaName a)];
    EvPrint [VStr "  row view baseline schema name = ";
             VStr (rowViewBaselineSchemaName a)];
    EvPrint [VStr "  metrics schema name = "; VStr (metricsSchemaName a)];
    EvCall (VAttr nonbib_db_conn "close") [];
    EvLog "info" [format "completed columnFileIngest with {}, {}"
                    [VStr (command a); fileType a]] ].

(** *** Vocabulary for further statements about run.py *)

(** The messages published in a trace, each with the task it was handed
    to. *)
Definition publications (tr : list Event) : list (string * list PyVal) :=
  omap (fun ev => match ev with EvPublish t b => Some (t, b) | _ => None end) tr.

(** The print statements of a trace. *)
Definition printed (tr : list Event) : list (list PyVal) :=
  omap (fun ev => match ev with EvPrint items => Some items | _ => None end) tr.

(** The tables [cur.copy_from(r, table_name)] was called on, in order. *)
Definition copied_tables (tr : list Event) : list PyVal :=
  omap (fun ev =>
          match ev with
          | EvCall (VAttr _ method) [_; table] =>
              if String.eqb method "copy_from" then Some table else None
          | _ => None
          end) tr.

(** The files the readers of a trace were built on, in order: the last
    argument of each call of one of the three reader classes. *)
Definition read_files (tr : list Event) : list PyVal :=
  omap (fun ev =>
          match ev with
          | EvCall (VAttr _ cls) args =>
              if String.eqb cls "BibcodeFileReader"
                 || String.eqb cls "RefereedFileReader"
                 || String.eqb cls "StandardFileReader"
              then last args else None
          | _ => None
          end) tr.

(** The name of the reader class load_column_files builds for a type. *)
Definition reader_class (t : string) : string :=
  if String.eqb t "canonical" then "BibcodeFileReader"
  else if String.eqb t "refereed" then "RefereedFileReader"
  else "StandardFileReader".

(** [sql_sync.schema + '.' + t], where sql_sync.schema is an attribute of
    an object of adsdata: the sum as [py_add] leaves it. *)
Definition table_name (sql_sync : PyVal) (t : string) : PyVal :=
  VAdd (VAdd (VAttr sql_sync "schema") (VStr ".")) (VStr t).

(** The configuration holds text under [key]. *)
Definition text_at (config : Row) (key : string) : Prop :=
  exists s, config !! key = Some (VStr s).

(** [config['DATA_PATH'] + config[t.upper()]] when both are text. *)
Definition column_file (config : Row) (t : string) : PyVal :=
  match config !! "DATA_PATH", config !! upper t with
  | Some (VStr path), Some (VStr file) => VStr (path +:+ file)
  | _, _ => VNone
  end.

(** The configuration keys the diagnose functions print, in the order they
    read them. *)
Definition queue_configuration_keys : list string :=
  ["CELERY_BROKER"; "CELERY_DEFAULT_EXCHANGE"; "CELERY_DEFAULT_EXCHANGE_TYPE";
   "OUTPUT_CELERY_BROKER"; "OUTPUT_TASKNAME"; "INGEST_DATABASE";
   "METRICS_DATABASE"].

(** The commands the help text of the [command] argument lists (lines
    228-234). *)
Definition advertised_commands : list string :=
  ["ingest"; "verify"; "createIngestTables"; "dropIngestTables";
   "renameSchema"; "createJoinedRows"; "createMetricsTable";
   "dropMetricsTable"; "populateMetricsTable"; "createDeltaRows";
   "populateMetricsTableDelta"; "runRowViewPipeline"; "runMetricsPipeline";
   "createNewBibcodes"; "runRowViewPipelineDelta"; "runMetricsPipelineDelta";
   "runPipelines"; "runPipelinesDelta"; "nonbibToMasterPipeline";
   "nonbibDeltaToMasterPipeline"; "metricsToMasterPipeline"].

(** main's local variables after line 251. *)
Definition main_nonbib_db_engine (loaded : Row) : PyVal :=
  VCall (VGlobal "create_engine")
    [dict_get loaded "INGEST_DATABASE" default_database] ∅.
Definition main_nonbib_db_conn (loaded : Row) : PyVal :=
  VCall (VAttr (main_nonbib_db_engine loaded) "connect") [] ∅.
Definition main_metrics_db_engine (loaded : Row) : PyVal :=
  VCall (VGlobal "create_engine")
    [dict_get loaded "METRICS_DATABASE" default_database] ∅.
Definition main_metrics_db_conn (loaded : Row) : PyVal :=
  VCall (VAttr (main_metrics_db_engine loaded) "connect") [] ∅.

(** What main does before the if/elif chain (lines 242-251). *)
Definition main_prologue (loaded : Row) (a : Args) : list Event :=
  [ EvLog "info" [format "starting AdsDataSqlSync.app with {}, {}"
                    [VStr (command a); fileType a]];
    EvCall (VGlobal "create_engine")
      [dict_get loaded "INGEST_DATABASE" default_database];
    EvCall (VAttr (main_nonbib_db_engine loaded) "connect") [];
    EvCall (VGlobal "create_engine")
      [dict_get loaded "METRICS_DATABASE" default_database];
    EvCall (VAttr (main_metrics_db_engine loaded) "connect") [] ].

(** What main does after the chain (lines 379-382). *)
Definition main_epilogue (loaded : Row) (a : Args) : list Event :=
  [ EvCall (VAttr (main_nonbib_db_conn loaded) "close") [];
    EvLog "info" [format "completed columnFileIngest with {}, {}"
                    [VStr (command a); fileType a]] ].

(** The if/elif chain of main, with main's local variables in place. *)
Definition main_dispatch (env : Env) (loaded : Row) (a : Args) : M unit :=
  dispatch (parse_args a)
    (arms env loaded (parse_args a)
       (main_nonbib_db_engine loaded) (main_nonbib_db_conn loaded)
       (main_metrics_db_engine loaded) (main_metrics_db_conn loaded))
    (illegal_command (parse_args a)).

End Run.

(* ===================================================================== *)
(** ** The metrics engine (specification sections 3 and 4.3) *)
(* ===================================================================== *)

Module Engine.
Import Py.

(** Modelled from the spec: the RowViewRecord of section 3; the record type
    itself (adsdata.models) is not among the sources. *)
Record RowViewRecord : Type := {
  id : Z;
  bibcode : string;
  authors : list string;
  refereed : bool;
  citations : list string;
  reference : list string;
  reads : list Z;
  downloads : list Z;
  simbad_objects : list string;
  grants : list string;
  readers : list string;
  boost : Q;
  citation_count : Z
}.

(** Modelled from the spec: what the lookup yields for one citing record,
    the triple (refereed_c, reference_num_c, bibcode_c) of section 4.3.  In
    tests/metrics_unittests.py (lines 79-86) these are the rows
    [refereed, len(reference), bibcode] of the mocked select. *)
Record CitingRow : Type := {
  cr_refereed : bool;
  cr_reference_num : Z;
  cr_bibcode : string
}.

(** Modelled from the spec: the lookup capability over the records of the
    bibcodes in the citations list (section 4.3).  It is handed the
    citations list and yields the rows of the citing records it finds, in
    the order it finds them; the unit test stands one select, answered by
    three rows, in its place.  The store access of adsdata is not among the
    sources. *)
Definition Lookup : Type := list string -> list CitingRow.

(** Modelled from the spec: a snapshot is a collection of RowViewRecords,
    and a point lookup by bibcode returns one record or a not-found signal
    (section 4.1). *)
Definition Snapshot : Type := list RowViewRecord.

(** Modelled from the spec: the point lookup by bibcode of section 4.1. *)
Definition get_row_view (snapshot : Snapshot) (b : string) : option RowViewRecord :=
  List.find (fun r => String.eqb (bibcode r) b) snapshot.

(** Modelled from the spec: what section 4.3 obtains from the record of a
    citing bibcode. *)
Definition citing_row (r : RowViewRecord) : CitingRow :=
  {| cr_refereed := refereed r;
     cr_reference_num := len (reference r);
     cr_bibcode := bibcode r |}.

(** Modelled from the spec: the lookup section 4.3 describes over a
    snapshot: each citing bibcode is fetched in list order, and one without
    a record in the snapshot is skipped. *)
Definition fetch (snapshot : Snapshot) : Lookup :=
  omap (fun c => citing_row <$> get_row_view snapshot c).

(** Modelled from the spec: one per-citation weight record of
    rn_citation_data (section 4.3). *)
Record RnCitation : Type := {
  rn_bibcode : string;
  pubyear : Z;
  cityear : Z;
  auth_norm : Q;
  ref_norm : Q
}.

(** Modelled from the spec: the MetricsRecord of section 3.  Floating-point
    fields are exact rationals here. *)
Record MetricsRecord : Type := {
  m_bibcode : string;
  m_id : Z;
  citation_num : Z;
  refereed_citation_num : Z;
  reference_num : Z;
  author_num : Z;
  m_citations : list string;
  refereed_citations : list string;
  rn_citation_data : list RnCitation;
  rn_citations : Q;
  an_citations : Q;
  an_refereed_citations : Q;
  m_reads : list Z;
  m_downloads : list Z
}.

(** Modelled from the spec: the publication year is parsed from the first
    four characters of the bibcode, which are four decimal digits. *)
Definition publication_year (b : string) : option Z :=
  let head := substring 0 4 b in
  if Nat.eqb (String.length head) 4 then digits_value 0 head else None.

(** Modelled from the spec:
    age = max(1, current_calendar_year - publication_year(bibcode) + 1). *)
Definition age (current_year year : Z) : Z := Z.max 1 (current_year - year + 1).

(** Modelled from the spec: what the loop over the citations of section 4.3
    has appended and summed so far (rn_citation_data, refereed_citations,
    the running sum of ref_norm). *)
Record Collected : Type := {
  col_data : list RnCitation;
  col_refereed : list string;
  col_total : Q
}.

Definition nothing_collected : Collected :=
  {| col_data := []; col_refereed := []; col_total := 0%Q |}.

(** Modelled from the spec: the work done for one citing record
    (section 4.3, "for a record with citations"): one entry of
    rn_citation_data, the bibcode among the refereed citations when the
    citing record is refereed, and ref_norm added to the sum. *)
Definition collect_citation (year : Z) (norm : Q) (col : Collected)
    (citing : CitingRow) : option Collected :=
  cited_in ← publication_year (cr_bibcode citing);
  let ref_norm_i := (norm / inject_Z (cr_reference_num citing))%Q in
  Some {| col_data :=
            col_data col ++
              [ {| rn_bibcode := cr_bibcode citing; pubyear := year;
                   cityear := cited_in; auth_norm := norm;
                   ref_norm := ref_norm_i |} ];
          col_refereed :=
            if cr_refereed citing then col_refereed col ++ [cr_bibcode citing]
            else col_refereed col;
          col_total := (col_total col + ref_norm_i)%Q |}.

(** Modelled from the spec: the loop of section 4.3 over the citing
    records, in the order the lookup gave them. *)
Fixpoint collect_citations (year : Z) (norm : Q) (col : Collected)
    (rows : list CitingRow) : option Collected :=
  match rows with
  | [] => Some col
  | citing :: rows' =>
      col' ← collect_citation year norm col citing;
      collect_citations year norm col' rows'
  end.

(** Modelled from the spec: row_view_to_metrics, the metrics engine of
    section 4.3 (adsdata/metrics.py is not among the sources).
    [current_year] is the current calendar year and [lookup] gives access
    to the records of the citing bibcodes; a row without citations is
    finished without asking it (the unit test passes None there).  The
    result is [None] when a bibcode that has to be read does not start with
    a four-digit year. *)
Definition row_view_to_metrics (current_year : Z) (lookup : Lookup)
    (row : RowViewRecord) : option MetricsRecord :=
  year ← publication_year (bibcode row);
  let age := age current_year year in
  let citation_num := len (citations row) in
  let reference_num := len (reference row) in
  let author_num := len (authors row) in
  match citations row with
  | [] =>
      Some {| m_bibcode := bibcode row; m_id := id row;
              citation_num := citation_num;
              refereed_citation_num := 0;
              reference_num := reference_num;
              author_num := author_num;
              m_citations := citations row;
              refereed_citations := [];
              rn_citation_data := [];
              rn_citations := 0%Q;
              an_citations := 0%Q;
              an_refereed_citations := 0%Q;
              m_reads := reads row; m_downloads := downloads row |}
  | _ :: _ =>
      let auth_norm := (1 / inject_Z author_num)%Q in
      col ← collect_citations year auth_norm nothing_collected
              (lookup (citations row));
      let refereed_citation_num := len (col_refereed col) in
      Some {| m_bibcode := bibcode row; m_id := id row;
              citation_num := citation_num;
              refereed_citation_num := refereed_citation_num;
              reference_num := reference_num;
              author_num := author_num;
              m_citations := citations row;
              refereed_citations := col_refereed col;
              rn_citation_data := col_data col;
              rn_citations := col_total col;
              an_citations := (inject_Z citation_num / inject_Z age)%Q;
              an_refereed_citations :=
                (inject_Z refereed_citation_num / inject_Z age)%Q;
              m_reads := reads row; m_downloads := downloads row |}
  end.

(** A bibcode that starts with a four-digit year. *)
Definition valid_bibcode (b : string) : bool :=
  match publication_year b with Some _ => true | None => false end.

(** The citing records the engine works on for [row]: what the lookup
    yields for its citations, and none when it has no citations. *)
Definition citing_rows (lookup : Lookup) (row : RowViewRecord) : list CitingRow :=
  match citations row with
  | [] => []
  | _ :: _ => lookup (citations row)
  end.


(** Sum of a sequence of weights. *)
Definition total (qs : list Q) : Q := fold_right Qplus 0%Q qs.

(** The entry of rn_citation_data that section 4.3 describes for the
    citing record [citing], for a cited record published in [year] whose
    authors share [norm]. *)
Definition entry_of (year : Z) (norm : Q) (e : RnCitation) (citing : CitingRow)
    : Prop :=
  rn_bibcode e = cr_bibcode citing /\
  auth_norm e = norm /\ pubyear e = year /\
  publication_year (cr_bibcode citing) = Some (cityear e) /\
  ref_norm e = (norm / inject_Z (cr_reference_num citing))%Q.

End Engine.

(* ===================================================================== *)
(** ** Concrete inputs *)
(* ===================================================================== *)

Module Examples.
Import Py.

Definition metrics_row (n : Z) (b : string) : Row :=
  {[ "id" := VInt n; "bibcode" := VStr b; "citation_num" := VInt 0 ]}.

Definition three_rows : list Row :=
  [ metrics_row 1 "1997BoLMe..85..475M";
    metrics_row 2 "1998PPGeo..22..553A";
    metrics_row 3 "2003ASPC..295..361M" ].

(** A store whose tables hold [three_rows]. *)
Definition store : Run.Env :=
  {| Run.rows_of := fun _ => three_rows;
     Run.get_row_view := fun _ => None;
     Run.read := fun _ => None;
     Run.all_types := ["canonical"; "author"; "refereed"];
     Run.reader_truthy := fun _ => true |}.

Definition record (n : Z) (b : string) (authors : list string) (refereed : bool)
    (citations reference : list string) (reads downloads : list Z)
    : Engine.RowViewRecord :=
  {| Engine.id := n; Engine.bibcode := b; Engine.authors := authors;
     Engine.refereed := refereed; Engine.citations := citations;
     Engine.reference := reference; Engine.reads := reads;
     Engine.downloads := downloads; Engine.simbad_objects := [];
     Engine.grants := []; Engine.readers := []; Engine.boost := 0%Q;
     Engine.citation_count := Z.of_nat (length citations) |}.

(** The records of tests/metrics_unittests.py. *)
Definition t1 : Engine.RowViewRecord :=
  record 11 "1998PPGeo..22..553A" ["Arnfield, A. L."] false []
    ["1997BoLMe..85..475M"] [1; 2; 3; 4] [0; 1; 2; 3].

Definition t2 : Engine.RowViewRecord :=
  record 3 "1997BoLMe..85..475M"
    ["Meesters, A. G. C. A."; "Bink, N. J."; "Henneken, E. A. C.";
     "Vugts, H. F."; "Cannemeijer, F."] true
    ["2006QJRMS.132..779R"; "2008Sci...320.1622D"; "1998PPGeo..22..553A"]
    ["1994BoLMe..71..393V"; "1994GPC.....9...53M"; "1997BoLMe..85...81M"]
    [] [].

(** The mocked select of test_with_citations (lines 81-86): whatever it is
    asked, it answers with these three rows. *)
Definition mocked_select : Engine.Lookup := fun _ =>
  [ {| Engine.cr_refereed := true; Engine.cr_reference_num := 1;
       Engine.cr_bibcode := "1994BoLMe..71..393V" |};
    {| Engine.cr_refereed := false; Engine.cr_reference_num := 1;
       Engine.cr_bibcode := "1994GPC.....9...53M" |};
    {| Engine.cr_refereed := true; Engine.cr_reference_num := 1;
       Engine.cr_bibcode := "1997BoLMe..85...81M" |} ].

(** Records for two of the bibcodes that cite [t2]; the third is [t1]. *)
Definition citing1 : Engine.RowViewRecord :=
  record 21 "2006QJRMS.132..779R" ["R"] true []
    ["1997BoLMe..85..475M"; "1990BoLMe..50....1X"] [] [].
Definition citing2 : Engine.RowViewRecord :=
  record 22 "2008Sci...320.1622D" ["D"] true [] ["1997BoLMe..85..475M"] [] [].

Definition snapshot : Engine.Snapshot := [t1; t2; citing1; citing2].

(** A metrics table whose fourth row has no id. *)
Definition rows_with_gap : list Row :=
  three_rows ++
  [ {[ "bibcode" := VStr "2004NoId...........X" ]};
    metrics_row 5 "2005ASPC..295..361M" ].

Definition store_with_gap : Run.Env :=
  {| Run.rows_of := fun _ => rows_with_gap;
     Run.get_row_view := fun _ => None;
     Run.read := fun _ => None;
     Run.all_types := ["canonical"; "author"; "refereed"];
     Run.reader_truthy := fun _ => true |}.

(** The object main binds to sql_sync for the default row view schema. *)
Definition sql_sync : PyVal :=
  VCall (VAttr (VGlobal "nonbib") "NonBib") [VStr "nonbib"] ∅.

(** A configuration with the file of every type of [store]. *)
Definition column_config : Row :=
  {[ "DATA_PATH" := VStr "/data/";
     "CANONICAL" := VStr "bibcodes.list.can";
     "AUTHOR" := VStr "facet_authors/all.links";
     "REFEREED" := VStr "refereed/all.links" ]}.

(** The same without the file of the refereed type. *)
Definition column_config_short : Row :=
  {[ "DATA_PATH" := VStr "/data/";
     "CANONICAL" := VStr "bibcodes.list.can";
     "AUTHOR" := VStr "facet_authors/all.links" ]}.

(** The same with None in the place of the file of the refereed type. *)
Definition column_config_none : Row :=
  <["REFEREED" := VNone]> column_config.

(** createIngestTables with an empty row view schema name (-r ''). *)
Definition create_without_schema : Run.Args :=
  {| Run.fileType := VNone; Run.rowViewSchemaName := "";
     Run.metricsSchemaName := "metrics";
     Run.rowViewBaselineSchemaName := "nonbibstaging";
     Run.batchSize := VInt 1; Run.diagnose := false;
     Run.command := "createIngestTables" |}.

(** metricsToMasterPipeline with the batch size given as [size]. *)
Definition forward_metrics (size : string) : Run.Args :=
  {| Run.fileType := VNone; Run.rowViewSchemaName := "nonbib";
     Run.metricsSchemaName := "metrics";
     Run.rowViewBaselineSchemaName := "nonbibstaging";
     Run.batchSize := VStr size; Run.diagnose := false;
     Run.command := "metricsToMasterPipeline" |}.

(** A configuration with the keys the diagnose functions print. *)
Definition queue_config : Row :=
  {[ "CELERY_BROKER" := VStr "pyamqp://guest@localhost:5682/data_pipeline";
     "CELERY_DEFAULT_EXCHANGE" := VStr "data_pipeline";
     "CELERY_DEFAULT_EXCHANGE_TYPE" := VStr "topic";
     "OUTPUT_CELERY_BROKER" := VStr "pyamqp://guest@localhost:5682/master_pipeline";
     "OUTPUT_TASKNAME" := VStr "adsmp.tasks.task_update_record";
     "INGEST_DATABASE" := VStr "postgresql://postgres@localhost:5432/postgres";
     "METRICS_DATABASE" := VStr "postgresql://postgres@localhost:5432/postgres" ]}.

(** The same with only the first two keys. *)
Definition queue_config_short : Row :=
  {[ "CELERY_BROKER" := VStr "pyamqp://guest@localhost:5682/data_pipeline";
     "CELERY_DEFAULT_EXCHANGE" := VStr "data_pipeline" ]}.

End Examples.

(* ===================================================================== *)
(** ** Facts about the monad *)
(* ===================================================================== *)

Section MonadFacts.
Import Py.
Context {A B : Type}.

Lemma outcome_bind (m : M A) (k : A -> M B) :
  outcome (m ≫= k) =
  match outcome m with inl e => inl e | inr a => outcome (k a) end.
Proof.
  destruct m as [[e|a] tr]; [reflexivity|].
  unfold outcome, mbind, M_bind, bind. cbn. destruct (k a); reflexivity.
Qed.

Lemma trace_bind (m : M A) (k : A -> M B) :
  trace (m ≫= k) =
  trace m ++ match outcome m with inl _ => [] | inr a => trace (k a) end.
Proof.
  destruct m as [[e|a] tr]; unfold outcome, trace, mbind, M_bind, bind; cbn.
  - by rewrite app_nil_r.
  - destruct (k a); reflexivity.
Qed.

Lemma bind_ret_l (a : A) (k : A -> M B) : (ret a ≫= k) = k a.
Proof. unfold mbind, M_bind, bind, ret. destruct (k a); reflexivity. Qed.

Lemma published_app (t1 t2 : list Event) :
  published (t1 ++ t2) = published t1 ++ published t2.
Proof. unfold published. apply omap_app. Qed.

Lemma published_bind (m : M A) (k : A -> M B) :
  published (trace (m ≫= k)) =
  published (trace m) ++
    match outcome m with inl _ => [] | inr a => published (trace (k a)) end.
Proof. rewrite trace_bind, published_app. by destruct (outcome m). Qed.

Lemma bind_emit ev (k : unit -> M B) : (emit ev ≫= k) = after ev (k tt).
Proof. unfold mbind, M_bind, bind, emit, after. by destruct (k tt). Qed.

Lemma bind_call callee args (k : PyVal -> M B) :
  (call callee args ≫= k) =
  after (EvCall callee args) (k (VCall callee args ∅)).
Proof.
  unfold call. unfold mbind, M_bind, bind, emit, after, ret. cbn.
  by destruct (k _).
Qed.

Lemma outcome_call callee args :
  outcome (call callee args) = inr (VCall callee args ∅).
Proof. reflexivity. Qed.

Lemma published_call callee args : published (trace (call callee args)) = [].
Proof. reflexivity. Qed.

Lemma len_app_one (l : list A) (x : A) : len (l ++ [x]) = len l + 1.
Proof. unfold len. rewrite length_app. cbn. lia. Qed.

Lemma len_concat_uniform bs (batches : list (list A)) :
  Forall (fun batch => len batch = bs) batches ->
  len (concat batches) = bs * len batches.
Proof.
  induction 1 as [|b batches Hb _ IH].
  - unfold len. cbn [concat length]. lia.
  - cbn [concat]. unfold len in *. rewrite length_app. cbn [length].
    rewrite Nat2Z.inj_add, Nat2Z.inj_succ, Z.mul_succ_r. lia.
Qed.

End MonadFacts.

(* ===================================================================== *)
(** ** The forwarding functions *)
(* ===================================================================== *)

Section Forwarding.
Import Py Run.

(** *** One turn of the loop of metrics_to_master_pipeline *)

Lemma step_no_id bs tmp row :
  row !! "id" = None ->
  metrics_to_master_pipeline_step bs tmp row = raise (KeyError "id").
Proof.
  intros H. unfold metrics_to_master_pipeline_step, dict_pop. rewrite H.
  reflexivity.
Qed.

Lemma step_full bs tmp row :
  has_id row -> bs <= len (tmp ++ [forwarded row]) ->
  outcome (metrics_to_master_pipeline_step bs tmp row) = inr [] /\
  published (trace (metrics_to_master_pipeline_step bs tmp row)) =
    [tmp ++ [forwarded row]].
Proof.
  intros [v H] Hle. unfold metrics_to_master_pipeline_step, dict_pop.
  rewrite H, bind_ret_l. cbn beta iota. fold (forwarded row).
  destruct (Z.geb_spec (len (tmp ++ [forwarded row])) bs); [|lia].
  split; reflexivity.
Qed.

Lemma step_partial bs tmp row :
  has_id row -> len (tmp ++ [forwarded row]) < bs ->
  outcome (metrics_to_master_pipeline_step bs tmp row) =
    inr (tmp ++ [forwarded row]) /\
  published (trace (metrics_to_master_pipeline_step bs tmp row)) = [].
Proof.
  intros [v H] Hlt. unfold metrics_to_master_pipeline_step, dict_pop.
  rewrite H, bind_ret_l. cbn beta iota. fold (forwarded row).
  destruct (Z.geb_spec (len (tmp ++ [forwarded row])) bs); [lia|].
  split; reflexivity.
Qed.

(** The three ways a turn can go: the row has no id and pop raises; the
    batch is full and is published; the batch is carried on. *)
Lemma step_cases bs tmp row :
  let tmp' := tmp ++ [forwarded row] in
  let s := metrics_to_master_pipeline_step bs tmp row in
  (row !! "id" = None /\ s = raise (KeyError "id")) \/
  (has_id row /\ bs <= len tmp' /\
     outcome s = inr [] /\ published (trace s) = [tmp']) \/
  (has_id row /\ len tmp' < bs /\
     outcome s = inr tmp' /\ published (trace s) = []).
Proof.
  intros tmp' s. destruct (row !! "id") as [v|] eqn:H.
  - assert (Hid : has_id row) by (by exists v).
    destruct (Z_le_gt_dec bs (len tmp')) as [Hle|Hgt].
    + right; left. destruct (step_full bs tmp row Hid Hle). auto.
    + right; right. assert (Hlt : len tmp' < bs) by lia.
      destruct (step_partial bs tmp row Hid Hlt). auto.
  - left. split; [done|]. by apply step_no_id.
Qed.

(** *** The loop *)

(** With a batch size of at least one the loop only publishes full batches,
    and carries fewer than [bs] records from turn to turn. *)
Lemma loop_sizes bs rows :
  1 <= bs -> forall tmp, len tmp < bs ->
  let loop := for_each rows tmp (metrics_to_master_pipeline_step bs) in
  Forall (fun batch => len batch = bs) (published (trace loop)) /\
  (forall tmp', outcome loop = inr tmp' -> len tmp' < bs).
Proof.
  intros Hbs. induction rows as [|row rows IH]; intros tmp Htmp; cbn zeta.
  - split; [constructor|]. intros tmp' [= <-]. done.
  - cbn [for_each]. rewrite published_bind, outcome_bind.
    destruct (step_cases bs tmp row)
      as [[_ ->]|[(_ & Hle & -> & ->)|(_ & Hlt & -> & ->)]].
    + cbn. split; [constructor|]. intros ? [=].
    + assert (Hz : len (@nil PyVal) < bs) by (change (0 < bs); lia).
      destruct (IH [] Hz) as [IH1 IH2]. split; [|exact IH2].
      constructor; [|exact IH1]. rewrite len_app_one in *. lia.
    + destruct (IH _ Hlt) as [IH1 IH2]. split; [exact IH1|exact IH2].
Qed.

(** When every row has an id the loop ends normally, and the published
    batches followed by what is left are the forwarded rows, in order. *)
Lemma loop_content bs rows :
  Forall has_id rows -> forall tmp,
  let loop := for_each rows tmp (metrics_to_master_pipeline_step bs) in
  exists tmp', outcome loop = inr tmp' /\
    concat (published (trace loop)) ++ tmp' = tmp ++ map forwarded rows.
Proof.
  induction 1 as [|row rows Hid _ IH]; intros tmp; cbn zeta.
  - exists tmp. cbn. by rewrite app_nil_r.
  - cbn [for_each]. rewrite published_bind, outcome_bind.
    destruct (step_cases bs tmp row)
      as [[Hno _]|[(_ & _ & -> & ->)|(_ & _ & -> & ->)]].
    + destruct Hid as [v Hv]. congruence.
    + destruct (IH []) as (tmp' & Ho & Hc). exists tmp'. split; [exact Ho|].
      cbn [concat app map]. rewrite <- !app_assoc. cbn in Hc. rewrite Hc.
      reflexivity.
    + destruct (IH (tmp ++ [forwarded row])) as (tmp' & Ho & Hc). exists tmp'.
      split; [exact Ho|]. cbn [app map]. rewrite Hc, <- app_assoc. reflexivity.
Qed.

(** Every record the loop publishes or carries comes from a row. *)
Lemma loop_origin bs all rows :
  (forall row, row ∈ rows -> row ∈ all) -> forall tmp,
  Forall (from_row all) tmp ->
  let loop := for_each rows tmp (metrics_to_master_pipeline_step bs) in
  Forall (Forall (from_row all)) (published (trace loop)) /\
  (forall tmp', outcome loop = inr tmp' -> Forall (from_row all) tmp').
Proof.
  induction rows as [|row rows IH]; intros Hsub tmp Htmp; cbn zeta.
  - split; [constructor|]. by intros tmp' [= <-].
  - cbn [for_each]. rewrite published_bind, outcome_bind.
    assert (Hrows : forall r, r ∈ rows -> r ∈ all)
      by (intros r Hr; apply Hsub; by right).
    assert (Hnew : has_id row -> Forall (from_row all) (tmp ++ [forwarded row])).
    { intros Hid. apply Forall_app. split; [exact Htmp|].
      constructor; [|constructor]. exists row. split; [apply Hsub; by left|done]. }
    destruct (step_cases bs tmp row)
      as [[_ ->]|[(Hid & _ & -> & ->)|(Hid & _ & -> & ->)]].
    + split; [constructor|]. intros ? [=].
    + destruct (IH Hrows [] (Forall_nil_2 _)) as [IH1 IH2].
      split; [|exact IH2]. constructor; [by apply Hnew|exact IH1].
    + destruct (IH Hrows _ (Hnew Hid)) as [IH1 IH2]. split; [exact IH1|exact IH2].
Qed.

(** *** The whole function *)

Lemma lookup_metrics frame :
  lookup_name metrics_to_master_pipeline_varnames frame "metrics" =
  ret (VGlobal "metrics").
Proof. reflexivity. Qed.

Lemma flush_published tmp :
  published (trace (metrics_to_master_pipeline_flush tmp)) =
  if len tmp >? 0 then [tmp] else [].
Proof. unfold metrics_to_master_pipeline_flush. by destruct (len tmp >? 0). Qed.

Lemma flush_outcome tmp : outcome (metrics_to_master_pipeline_flush tmp) = inr tt.
Proof. unfold metrics_to_master_pipeline_flush. by destruct (len tmp >? 0). Qed.

(** What metrics_to_master_pipeline publishes and how it ends, in terms of
    its loop. *)
Lemma metrics_to_master_pipeline_unfold env schema batch_size :
  let loop := for_each (metrics_table_rows env schema) []
                (metrics_to_master_pipeline_step batch_size) in
  published (trace (metrics_to_master_pipeline env schema batch_size)) =
    published (trace loop) ++
      match outcome loop with
      | inl _ => []
      | inr tmp => if len tmp >? 0 then [tmp] else []
      end /\
  outcome (metrics_to_master_pipeline env schema batch_size) =
    match outcome loop with inl e => inl e | inr _ => inr tt end.
Proof.
  cbn zeta. unfold metrics_to_master_pipeline. cbv zeta.
  rewrite lookup_metrics, bind_ret_l.
  unfold call_method.
  repeat first [ rewrite published_bind | rewrite outcome_bind
               | rewrite outcome_call | rewrite published_call ].
  fold (metrics_table_rows env schema). cbn [app].
  split.
  - destruct (outcome (for_each _ _ _)); [done|]. by rewrite flush_published.
  - destruct (outcome (for_each _ _ _)); [done|]. by rewrite flush_outcome.
Qed.

End Forwarding.

Section ForwardingClaims.
Import Py Run Examples.

(** C5 (the code falls short of the claim).  The claim asks both
    metrics_to_master_pipeline and nonbib_to_master_pipeline to publish the
    records of their table in batches.  On a table of three rows and a batch
    size of two, metrics_to_master_pipeline publishes a batch of two and a
    final batch of one, while nonbib_to_master_pipeline stops with
    UnboundLocalError at its first statement and publishes nothing. *)
Theorem nonbib_to_master_pipeline_publishes_nothing :
  length (rows_of store (select (VAttr (VCall (VAttr (VGlobal "nonbib") "NonBib")
                                          [VStr "nonbib"] ∅) "table"))) = 3%nat /\
  outcome (nonbib_to_master_pipeline store (VStr "nonbib") 2) =
    inl (UnboundLocalError "nonbib") /\
  published (trace (nonbib_to_master_pipeline store (VStr "nonbib") 2)) = [] /\
  outcome (metrics_to_master_pipeline store (VStr "metrics") 2) = inr tt /\
  len <$> published (trace (metrics_to_master_pipeline store (VStr "metrics") 2)) =
    [2; 1].
Proof. repeat split; reflexivity. Qed.

(** C6.  Every record metrics_to_master_pipeline publishes was built from a
    row of the metrics table that has an [id], with that row minus its [id]
    as keyword arguments: [id] is absent and every other key has the value
    it has in the row.  When all rows have an [id], the published records
    are the rows, in order, each without its [id].
    metrics_delta_to_master_pipeline, the other place with the same
    pop-and-construct lines, publishes nothing at all. *)
Theorem metrics_rows_forwarded_without_id env schema batch_size :
  let rows := metrics_table_rows env schema in
  let run := metrics_to_master_pipeline env schema batch_size in
  Forall (Forall (fun r => exists row kw,
            row ∈ rows /\ is_Some (row !! "id") /\
            r = _data (MetricsRecord kw) /\
            kw !! "id" = None /\
            forall k, k <> "id" -> kw !! k = row !! k))
    (published (trace run)) /\
  (Forall has_id rows ->
     outcome run = inr tt /\
     concat (published (trace run)) =
       (fun row => _data (MetricsRecord (delete "id" row))) <$> rows) /\
  (forall metrics_schema nonbib_schema,
     published (trace (metrics_delta_to_master_pipeline env metrics_schema
                         nonbib_schema batch_size)) = []).
Proof.
  cbn zeta.
  destruct (metrics_to_master_pipeline_unfold env schema batch_size) as [Hp Ho].
  cbn zeta in Hp, Ho. rewrite Hp, Ho. clear Hp Ho.
  set (rows := metrics_table_rows env schema).
  split; [|split].
  - destruct (loop_origin batch_size rows rows (fun _ H => H) [] (Forall_nil_2 _))
      as [H1 H2]. cbn zeta in H1, H2.
    assert (Hconv : forall l, Forall (from_row rows) l ->
      Forall (fun r => exists row kw, row ∈ rows /\ is_Some (row !! "id") /\
         r = _data (MetricsRecord kw) /\ kw !! "id" = None /\
         forall k, k <> "id" -> kw !! k = row !! k) l).
    { intros l Hl. eapply Forall_impl; [exact Hl|].
      intros r (row & Hin & Hid & ->).
      exists row, (delete "id" row). split; [done|]. split; [done|].
      split; [reflexivity|]. split; [apply lookup_delete_eq|].
      intros k Hk. by apply lookup_delete_ne. }
    apply Forall_app. split.
    + eapply Forall_impl; [exact H1|]. exact Hconv.
    + destruct (outcome (for_each rows [] _)) as [e|tmp]; [constructor|].
      destruct (len tmp >? 0); [|constructor].
      constructor; [|constructor]. apply Hconv. by apply H2.
  - intros Hids.
    destruct (loop_content batch_size rows Hids []) as (tmp & Ho & Hc).
    cbn zeta in Ho, Hc. rewrite Ho. split; [reflexivity|].
    change ([] ++ map forwarded rows) with (map forwarded rows) in Hc.
    change (concat (published (trace (for_each rows []
              (metrics_to_master_pipeline_step batch_size))) ++
              (if len tmp >? 0 then [tmp] else [])) = map forwarded rows).
    rewrite concat_app, <- Hc. f_equal.
    destruct (Z.gtb_spec (len tmp) 0) as [|Hz]; [cbn; by rewrite app_nil_r|].
    destruct tmp; [reflexivity|]. unfold len in Hz. cbn in Hz. lia.
  - reflexivity.
Qed.

Lemma metrics_rows_forwarded_without_id_witness :
  Forall has_id (metrics_table_rows store (VStr "metrics")) /\
  outcome (metrics_to_master_pipeline store (VStr "metrics") 2) = inr tt /\
  concat (published (trace (metrics_to_master_pipeline store (VStr "metrics") 2))) =
    (fun row => _data (MetricsRecord (delete "id" row))) <$> three_rows.
Proof.
  assert (H : Forall has_id (metrics_table_rows store (VStr "metrics"))).
  { repeat constructor; eexists; reflexivity. }
  split; [exact H|].
  exact (proj1 (proj2 (metrics_rows_forwarded_without_id store (VStr "metrics") 2)) H).
Defined.

(** C9.  [nonbib] is a local name of nonbib_to_master_pipeline,
    nonbib_delta_to_master_pipeline and metrics_delta_to_master_pipeline,
    because each assigns it.  For every schema and batch size, and whatever
    the store holds, each of the three stops with UnboundLocalError for
    [nonbib] at the first read of that name: the first two before any call,
    the third after constructing the Metrics object and nothing else.  None
    executes a query, reads a row or publishes a message. *)
Theorem nonbib_functions_raise_unbound_local env schema metrics_schema batch_size :
  "nonbib" ∈ nonbib_to_master_pipeline_varnames /\
  "nonbib" ∈ nonbib_delta_to_master_pipeline_varnames /\
  "nonbib" ∈ metrics_delta_to_master_pipeline_varnames /\
  nonbib_to_master_pipeline env schema batch_size =
    (inl (UnboundLocalError "nonbib"), []) /\
  nonbib_delta_to_master_pipeline env schema batch_size =
    (inl (UnboundLocalError "nonbib"), []) /\
  metrics_delta_to_master_pipeline env metrics_schema schema batch_size =
    (inl (UnboundLocalError "nonbib"),
     [EvCall (VAttr (VGlobal "metrics") "Metrics") [metrics_schema]]) /\
  published (trace (nonbib_to_master_pipeline env schema batch_size)) = [] /\
  published (trace (nonbib_delta_to_master_pipeline env schema batch_size)) = [] /\
  published (trace (metrics_delta_to_master_pipeline env metrics_schema schema
                      batch_size)) = [] /\
  called (trace (nonbib_to_master_pipeline env schema batch_size)) = [] /\
  called (trace (nonbib_delta_to_master_pipeline env schema batch_size)) = [] /\
  called (trace (metrics_delta_to_master_pipeline env metrics_schema schema
                   batch_size)) = ["Metrics"].
Proof.
  split; [|split; [|split]];
    try (unfold nonbib_to_master_pipeline_varnames,
           nonbib_delta_to_master_pipeline_varnames,
           metrics_delta_to_master_pipeline_varnames;
         apply list_elem_of_In; cbn; tauto).
  repeat split; reflexivity.
Qed.

(** C10, as stated, fails for a batch size below one: with batch size 0
    every record is published on its own, so a message holds one record,
    which is more than the batch size. *)
Lemma batch_size_zero_exceeds :
  ~ (forall env schema batch_size,
       Forall (fun batch => 1 <= len batch <= batch_size)
         (published (trace (metrics_to_master_pipeline env schema batch_size)))).
Proof.
  intros H. specialize (H store (VStr "metrics") 0).
  apply Forall_cons_1 in H as [[_ H] _]. revert H. vm_compute. intros H. by apply H.
Qed.

(** C10, amended.  For a batch size of at least one: every message
    metrics_to_master_pipeline publishes holds at least one and at most
    [batch_size] records; every message before the last holds exactly
    [batch_size]; and when the table has a multiple of [batch_size] rows
    (all with an id), every message holds exactly [batch_size] records and
    there are rows / batch_size messages, so no further message follows the
    full ones. *)
Theorem metrics_batches_sized env schema batch_size :
  1 <= batch_size ->
  let rows := metrics_table_rows env schema in
  let run := metrics_to_master_pipeline env schema batch_size in
  let messages := published (trace run) in
  Forall (fun batch => 1 <= len batch <= batch_size) messages /\
  (forall front final, messages = front ++ [final] ->
     Forall (fun batch => len batch = batch_size) front) /\
  (Forall has_id rows -> len rows mod batch_size = 0 ->
     Forall (fun batch => len batch = batch_size) messages /\
     len messages = len rows / batch_size).
Proof.
  intros Hbs. cbn zeta.
  destruct (metrics_to_master_pipeline_unfold env schema batch_size) as [Hp _].
  cbn zeta in Hp. rewrite Hp. clear Hp.
  set (rows := metrics_table_rows env schema).
  assert (Hz : len (@nil PyVal) < batch_size) by (change (0 < batch_size); lia).
  destruct (loop_sizes batch_size rows Hbs [] Hz) as [Hfull Hrest].
  cbn zeta in Hfull, Hrest.
  set (loop := for_each rows [] (metrics_to_master_pipeline_step batch_size)) in *.
  set (full := published (trace loop)) in *.
  split; [|split].
  - apply Forall_app. split.
    + eapply Forall_impl; [exact Hfull|]. cbn. intros b Hb. lia.
    + destruct (outcome loop) as [e|tmp]; [constructor|].
      destruct (Z.gtb_spec (len tmp) 0); [|constructor].
      constructor; [|constructor]. specialize (Hrest tmp eq_refl). lia.
  - intros front final Heq.
    destruct (outcome loop) as [e|tmp].
    + rewrite app_nil_r in Heq. rewrite Heq in Hfull.
      by apply Forall_app in Hfull as [? _].
    + destruct (len tmp >? 0).
      * apply app_inj_tail in Heq as [<- _]. exact Hfull.
      * rewrite app_nil_r in Heq. rewrite Heq in Hfull.
        by apply Forall_app in Hfull as [? _].
  - intros Hids Hmod.
    destruct (loop_content batch_size rows Hids []) as (tmp & Ho & Hc).
    cbn zeta in Ho, Hc. fold loop in Ho, Hc. fold full in Hc. rewrite Ho.
    specialize (Hrest tmp Ho).
    assert (Hlen : len rows = batch_size * len full + len tmp).
    { rewrite <- (len_concat_uniform batch_size full Hfull).
      cbn [app] in Hc. apply (f_equal len) in Hc. unfold len in *.
      rewrite length_app, length_map in Hc. lia. }
    assert (H0 : 0 <= len tmp) by (unfold len; lia).
    assert (Htmp : len tmp = 0).
    { rewrite Hlen in Hmod.
      rewrite Z.add_comm, Z.mul_comm, Z_mod_plus_full in Hmod.
      rewrite Z.mod_small in Hmod by lia. exact Hmod. }
    destruct (Z.gtb_spec (len tmp) 0); [lia|]. rewrite app_nil_r.
    split; [exact Hfull|].
    rewrite Hlen, Htmp, Z.add_0_r, Z.mul_comm, Z.div_mul by lia. reflexivity.
Qed.

Lemma metrics_batches_sized_witness :
  1 <= 2 /\
  len <$> published (trace (metrics_to_master_pipeline store (VStr "metrics") 2)) =
    [2; 1] /\
  Forall (fun batch => 1 <= len batch <= 2)
    (published (trace (metrics_to_master_pipeline store (VStr "metrics") 2))).
Proof.
  assert (H : 1 <= 2) by lia.
  split; [exact H|]. split; [reflexivity|].
  exact (proj1 (metrics_batches_sized store (VStr "metrics") 2 H)).
Defined.

End ForwardingClaims.

(* ===================================================================== *)
(** ** main *)
(* ===================================================================== *)

Section CommandLine.
Import Py Run Examples.

(** The table of conditions is the one the arms of main carry. *)
Lemma arms_requirements env config args e1 c1 e2 c2 :
  arm_head <$> arms env config args e1 c1 e2 c2 = requirements.
Proof. reflexivity. Qed.

Lemma requirements_attributes :
  Forall (fun h => Forall (fun x => x ∈ attribute_names) h.2) requirements.
Proof. unfold requirements, attribute_names. repeat constructor. Qed.

Lemma parse_args_lookup a x :
  x ∈ attribute_names -> is_Some (parse_args a !! x).
Proof.
  intros H. unfold attribute_names in H.
  repeat (apply elem_of_cons in H as [->|H]; [eexists; reflexivity|]).
  by apply elem_of_nil in H.
Qed.

Lemma getattr_command a :
  getattr (parse_args a) "command" = ret (VStr (command a)).
Proof. reflexivity. Qed.

Lemma getattr_fileType a : getattr (parse_args a) "fileType" = ret (fileType a).
Proof. reflexivity. Qed.

Lemma all_truthy_parse_args a attrs :
  Forall (fun x => x ∈ attribute_names) attrs ->
  all_truthy (parse_args a) attrs = ret (forallb (attr_truthy a) attrs).
Proof.
  induction 1 as [|x attrs Hx _ IH]; [reflexivity|].
  cbn [all_truthy forallb]. unfold getattr, attr_truthy at 1.
  destruct (parse_args_lookup a x Hx) as [v ->].
  rewrite bind_ret_l. destruct (truthy v); [exact IH|reflexivity].
Qed.

(** On a parsed command line the test of an arm never raises, and says
    whether the command line satisfies the arm's condition. *)
Lemma arm_test_parse_args a arm :
  Forall (fun x => x ∈ attribute_names) (arm_required arm) ->
  arm_test (parse_args a) arm = ret (selects a (arm_head arm)).
Proof.
  intros H. unfold arm_test. rewrite getattr_command, bind_ret_l.
  unfold selects. cbn [arm_head fst snd].
  destruct (String.eqb (command a) (arm_command arm)); [|reflexivity].
  by apply all_truthy_parse_args.
Qed.

Lemma dispatch_no_arm args arms orelse :
  Forall (fun arm => arm_test args arm = ret false) arms ->
  dispatch args arms orelse = orelse.
Proof.
  induction 1 as [|arm arms H _ IH]; [reflexivity|].
  cbn [dispatch]. rewrite H, bind_ret_l. exact IH.
Qed.

(** An illegal invocation falls through every arm to the else arm. *)
Lemma dispatch_illegal env config a e1 c1 e2 c2 orelse :
  illegal_invocation a = true ->
  dispatch (parse_args a) (arms env config (parse_args a) e1 c1 e2 c2) orelse =
  orelse.
Proof.
  intros H. apply dispatch_no_arm. apply Forall_forall. intros arm Harm.
  assert (Hh : arm_head arm ∈ requirements).
  { rewrite <- (arms_requirements env config (parse_args a) e1 c1 e2 c2).
    by apply list_elem_of_fmap_2. }
  rewrite arm_test_parse_args.
  - unfold illegal_invocation in H. rewrite forallb_forall in H.
    apply list_elem_of_In in Hh. specialize (H _ Hh).
    apply negb_true_iff in H. by rewrite H.
  - pose proof requirements_attributes as Hr. rewrite Forall_forall in Hr.
    exact (Hr _ Hh).
Qed.

(** A command that no arm names is an illegal invocation. *)
Lemma unrecognized_command_illegal a :
  command a ∉ requirements.*1 -> illegal_invocation a = true.
Proof.
  intros Hnot. unfold illegal_invocation. apply forallb_forall.
  intros h Hh. apply negb_true_iff. unfold selects.
  destruct (String.eqb_spec (command a) h.1) as [Heq|]; [|reflexivity].
  exfalso. apply Hnot. rewrite Heq. apply list_elem_of_fmap_2.
  by apply list_elem_of_In.
Qed.

(** C7, as stated, fails in two ways.  For the unrecognized command
    [bogus] main has already opened a connection to the ingest database and
    one to the metrics database before it looks at the command, so the run
    does contain calls that reach the relational store.  And
    createIngestTables with an empty row view schema name is not reported
    at all: the condition at line 257 compares the command only, so main
    prints nothing, constructs NonBib with the empty name and creates the
    column tables. *)
Lemma illegal_invocation_connects :
  (illegal_invocation (default_args "bogus") = true /\
   store_calls (trace (main store ∅ (default_args "bogus"))) =
     ["connect"; "connect"; "close"]) /\
  (rowViewSchemaName create_without_schema = "" /\
   illegal_invocation create_without_schema = false /\
   outcome (main store ∅ create_without_schema) = inr tt /\
   printed (trace (main store ∅ create_without_schema)) = [] /\
   calls (trace (main_dispatch store ∅ create_without_schema)) =
     [ (VAttr (VGlobal "nonbib") "NonBib", [VStr ""]);
       (VAttr (VCall (VAttr (VGlobal "nonbib") "NonBib") [VStr ""] ∅)
          "create_column_tables", [main_nonbib_db_engine ∅]) ] /\
   store_calls (trace (main store ∅ create_without_schema)) =
     ["connect"; "connect"; "NonBib"; "create_column_tables"; "close"]).
Proof. repeat split. Qed.

(** C7, amended.  When no condition of the if/elif chain holds (the
    command is none of those the chain compares with, or it is one whose
    condition also asks for a schema name or for --diagnose, and that value
    is empty or false), main opens the two database connections as on every
    invocation, prints the command and the three schema names, closes the
    ingest connection and returns; it calls nothing else on the store and
    publishes nothing on the queue.  Calls into sqlalchemy are taken to
    return.  An invocation that satisfies the condition of an arm is not
    covered, also when a schema name that arm uses is empty. *)
Theorem illegal_invocation_reported env loaded a :
  illegal_invocation a = true ->
  main env loaded a = (inr tt, illegal_invocation_trace loaded a) /\
  published (trace (main env loaded a)) = [] /\
  store_calls (trace (main env loaded a)) = ["connect"; "connect"; "close"].
Proof.
  intros H.
  assert (Hmain : main env loaded a = (inr tt, illegal_invocation_trace loaded a)).
  { unfold main. cbv zeta. unfold call_method, log, print.
    repeat first [ rewrite getattr_command | rewrite getattr_fileType
                 | rewrite bind_ret_l | rewrite bind_call | rewrite bind_emit ].
    rewrite (dispatch_illegal _ _ _ _ _ _ _ _ H).
    destruct a. reflexivity. }
  rewrite Hmain. repeat split; reflexivity.
Qed.

Lemma illegal_invocation_reported_witness :
  illegal_invocation (default_args "bogus") = true /\
  main store ∅ (default_args "bogus") =
    (inr tt, illegal_invocation_trace ∅ (default_args "bogus")) /\
  published (trace (main store ∅ (default_args "bogus"))) = [] /\
  store_calls (trace (main store ∅ (default_args "bogus"))) =
    ["connect"; "connect"; "close"].
Proof.
  assert (H : illegal_invocation (default_args "bogus") = true) by reflexivity.
  split; [exact H|].
  exact (illegal_invocation_reported store ∅ (default_args "bogus") H).
Defined.

(** C8 (the code falls short of the claim).  With the default schema names,
    whatever the store and the configuration:
    - runPipelines stops with AttributeError for [rowViewSchemaNameg], the
      attribute read at line 331, right after the two connections are
      opened: no table is dropped, created or loaded and no metrics are
      computed;
    - runPipelinesDelta drops and renames, creates the tables, and then
      stops with TypeError at the call of load_column_files with two
      arguments: no column file is loaded, and neither the joined rows, the
      delta nor the metrics are computed. *)
Theorem combined_pipelines_stop_early env loaded :
  outcome (main env loaded (default_args "runPipelines")) =
    inl (AttributeError "rowViewSchemaNameg") /\
  called (trace (main env loaded (default_args "runPipelines"))) =
    ["create_engine"; "connect"; "create_engine"; "connect"] /\
  outcome (main env loaded (default_args "runPipelinesDelta")) =
    inl (TypeError "load_column_files() takes exactly 4 arguments") /\
  called (trace (main env loaded (default_args "runPipelinesDelta"))) =
    ["create_engine"; "connect"; "create_engine"; "connect";
     "NonBib"; "drop_column_tables"; "NonBib"; "rename_schema";
     "NonBib"; "create_column_tables"].
Proof. repeat split; reflexivity. Qed.

End CommandLine.

(* ===================================================================== *)
(** ** The metrics engine *)
(* ===================================================================== *)

Section EngineFacts.
Import Py Engine Examples.

Lemma get_row_view_bibcode snapshot c citing :
  get_row_view snapshot c = Some citing -> bibcode citing = c.
Proof.
  unfold get_row_view. intros H. apply find_some in H as [_ H].
  by apply String.eqb_eq in H.
Qed.

Lemma total_cons q qs : total (q :: qs) = (q + total qs)%Q.
Proof. reflexivity. Qed.

Lemma total_app qs1 qs2 : (total (qs1 ++ qs2) == total qs1 + total qs2)%Q.
Proof.
  induction qs1 as [|q qs1 IH].
  - change (total ([] ++ qs2)) with (total qs2). change (total []) with 0%Q. ring.
  - change ((q :: qs1) ++ qs2) with (q :: (qs1 ++ qs2)).
    rewrite !total_cons, IH. ring.
Qed.




(** Every row of the snapshot lookup is the row of a record the snapshot
    holds under the row's bibcode. *)
Lemma fetch_rows snapshot cs :
  Forall (fun citing => exists r, get_row_view snapshot (cr_bibcode citing) = Some r /\
                                  citing = citing_row r)
    (fetch snapshot cs).
Proof.
  unfold fetch. induction cs as [|c cs IH]; [constructor|].
  cbn [omap list_omap].
  destruct (get_row_view snapshot c) as [r|] eqn:Hc; [|exact IH].
  cbn. constructor; [|exact IH]. exists r. split; [|reflexivity].
  cbn. by rewrite (get_row_view_bibcode _ _ _ Hc).
Qed.

(** What one citing record adds to the collected data. *)
Lemma collect_citation_spec year norm col citing col' :
  collect_citation year norm col citing = Some col' ->
  col_refereed col' =
    col_refereed col ++ (cr_bibcode <$> List.filter cr_refereed [citing]) /\
  exists e, col_data col' = col_data col ++ [e] /\
    entry_of year norm e citing /\
    (col_total col' == col_total col + ref_norm e)%Q.
Proof.
  unfold collect_citation. cbn [List.filter].
  destruct (publication_year (cr_bibcode citing)) as [cy|] eqn:Hy; [|done].
  cbn. intros [= <-]. cbn. split.
  - destruct (cr_refereed citing); [done | by rewrite app_nil_r].
  - eexists. split; [reflexivity|]. split; [|cbn; ring].
    repeat split; cbn. exact Hy.
Qed.

(** What the loop over the citing records adds, by induction on them. *)
Lemma collect_citations_spec year norm rows : forall col col',
  collect_citations year norm col rows = Some col' ->
  col_refereed col' =
    col_refereed col ++ (cr_bibcode <$> List.filter cr_refereed rows) /\
  exists new, col_data col' = col_data col ++ new /\
    Forall2 (entry_of year norm) new rows /\
    (col_total col' == col_total col + total (ref_norm <$> new))%Q.
Proof.
  induction rows as [|citing rows IH]; intros col col'.
  - intros [= <-]. cbn. rewrite app_nil_r. split; [done|].
    exists []. rewrite app_nil_r. split; [done|]. split; [constructor|].
    cbn. ring.
  - cbn [collect_citations].
    destruct (collect_citation year norm col citing) as [col1|] eqn:H1; [|done].
    cbn. intros H2.
    destruct (collect_citation_spec _ _ _ _ _ H1) as (Hr1 & e & Hd1 & He & Ht1).
    destruct (IH _ _ H2) as (Hr2 & new2 & Hd2 & Hf2 & Ht2).
    split.
    + rewrite Hr2, Hr1, <- app_assoc. f_equal.
      cbn [List.filter]. by destruct (cr_refereed citing).
    + exists (e :: new2). split; [by rewrite Hd2, Hd1, <- app_assoc|].
      split; [by constructor|].
      rewrite Ht2, Ht1. cbn [fmap list_fmap]. rewrite total_cons. ring.
Qed.

Lemma collect_citations_total year norm rows : forall col,
  forallb valid_bibcode (cr_bibcode <$> rows) = true ->
  is_Some (collect_citations year norm col rows).
Proof.
  induction rows as [|citing rows IH]; intros col H; [by eexists|].
  cbn in H. apply andb_true_iff in H as [Hc Hcs]. cbn [collect_citations].
  unfold collect_citation, valid_bibcode in *.
  destruct (publication_year (cr_bibcode citing)); [|done].
  cbn. by apply IH.
Qed.

(** The engine produces a record for every row whose bibcode, and those of
    the citing records it is given, start with a year. *)
Lemma row_view_to_metrics_total current_year lookup row :
  valid_bibcode (bibcode row) = true ->
  forallb valid_bibcode (cr_bibcode <$> citing_rows lookup row) = true ->
  is_Some (row_view_to_metrics current_year lookup row).
Proof.
  unfold valid_bibcode at 1, row_view_to_metrics, citing_rows. intros Hb Hc.
  destruct (publication_year (bibcode row)) as [year|]; [|done]. cbn.
  destruct (citations row) as [|c cs] eqn:E; [by eexists|].
  destruct (collect_citations_total year
              (1 / inject_Z (len (authors row)))%Q (lookup (c :: cs))
              nothing_collected Hc) as [col ->].
  by eexists.
Qed.

(** The two ways a record is produced. *)
Lemma row_view_to_metrics_inv current_year lookup row m :
  row_view_to_metrics current_year lookup row = Some m ->
  exists year, publication_year (bibcode row) = Some year /\
    ((citations row = [] /\
      refereed_citation_num m = 0 /\ refereed_citations m = [] /\
      rn_citation_data m = [] /\ rn_citations m = 0%Q /\
      an_citations m = 0%Q /\ an_refereed_citations m = 0%Q) \/
     (exists col,
        citations row <> [] /\
        collect_citations year (1 / inject_Z (len (authors row)))%Q
          nothing_collected (lookup (citations row)) = Some col /\
        refereed_citation_num m = len (col_refereed col) /\
        refereed_citations m = col_refereed col /\
        rn_citation_data m = col_data col /\
        rn_citations m = col_total col /\
        an_citations m =
          (inject_Z (len (citations row)) / inject_Z (age current_year year))%Q /\
        an_refereed_citations m =
          (inject_Z (len (col_refereed col)) /
             inject_Z (age current_year year))%Q)) /\
    citation_num m = len (citations row) /\
    author_num m = len (authors row).
Proof.
  unfold row_view_to_metrics.
  destruct (publication_year (bibcode row)) as [year|]; [|done]. cbn.
  intros H. exists year. split; [done|].
  destruct (citations row) as [|c cs] eqn:E.
  - injection H as <-. cbn. split; [|done]. left. repeat split.
  - destruct (collect_citations _ _ _ (lookup (c :: cs))) as [col|] eqn:Hc; [|done].
    cbn in H. injection H as <-. cbn. split; [|done]. right. exists col.
    repeat split; done.
Qed.

Lemma citing_rows_nonempty lookup row :
  citations row <> [] -> citing_rows lookup row = lookup (citations row).
Proof. unfold citing_rows. by destruct (citations row). Qed.

Lemma citing_rows_empty lookup row :
  citations row = [] -> citing_rows lookup row = [].
Proof. unfold citing_rows. by intros ->. Qed.

(** C1.  For a row without citations (and a bibcode that starts with a
    year) the engine produces a record, whatever the lookup, with
    refereed_citation_num = 0, rn_citations = 0, an empty rn_citation_data,
    an_citations = 0 and an_refereed_citations = 0. *)
Theorem no_citations_metrics_zero current_year lookup row :
  citations row = [] ->
  valid_bibcode (bibcode row) = true ->
  exists m, row_view_to_metrics current_year lookup row = Some m /\
    refereed_citation_num m = 0 /\
    rn_citations m = 0%Q /\
    rn_citation_data m = [] /\
    an_citations m = 0%Q /\
    an_refereed_citations m = 0%Q.
Proof.
  intros Hc Hb.
  assert (Hcs : forallb valid_bibcode (cr_bibcode <$> citing_rows lookup row) = true)
    by (by rewrite (citing_rows_empty _ _ Hc)).
  destruct (row_view_to_metrics_total current_year lookup row Hb Hcs) as [m Hm].
  exists m. split; [exact Hm|].
  destruct (row_view_to_metrics_inv _ _ _ _ Hm) as (year & _ & [H|H] & _).
  - tauto.
  - destruct H as (col & Hne & _). done.
Qed.

Lemma no_citations_metrics_zero_witness :
  citations t1 = [] /\ valid_bibcode (bibcode t1) = true /\
  exists m, row_view_to_metrics 2017 (fetch snapshot) t1 = Some m /\
    refereed_citation_num m = 0 /\
    rn_citations m = 0%Q /\
    rn_citation_data m = [] /\
    an_citations m = 0%Q /\
    an_refereed_citations m = 0%Q.
Proof.
  split; [reflexivity|]. split; [reflexivity|].
  apply (no_citations_metrics_zero 2017 (fetch snapshot) t1); reflexivity.
Defined.



(** C3.  In the record the engine produces, rn_citations is the sum of the
    ref_norm fields of rn_citation_data (exactly, the numbers being
    rationals here); rn_citation_data has one entry per citing record the
    lookup yields, in that order, with the bibcode of the citing record,
    auth_norm = 1 / author_num of the cited record and
    ref_norm = auth_norm / reference_num of the citing record.  For the
    lookup over a snapshot the citing record of an entry is the record the
    snapshot holds under the entry's bibcode. *)
Theorem rn_citations_is_sum current_year lookup row :
  valid_bibcode (bibcode row) = true ->
  forallb valid_bibcode (cr_bibcode <$> citing_rows lookup row) = true ->
  exists m, row_view_to_metrics current_year lookup row = Some m /\
    (rn_citations m == total (ref_norm <$> rn_citation_data m))%Q /\
    Forall2 (fun e citing =>
      rn_bibcode e = cr_bibcode citing /\
      auth_norm e = (1 / inject_Z (author_num m))%Q /\
      ref_norm e = (auth_norm e / inject_Z (cr_reference_num citing))%Q)
      (rn_citation_data m) (citing_rows lookup row) /\
    (forall snapshot,
       lookup (citations row) = fetch snapshot (citations row) ->
       Forall (fun e =>
         auth_norm e = (1 / inject_Z (author_num m))%Q /\
         exists citing, get_row_view snapshot (rn_bibcode e) = Some citing /\
           ref_norm e = (auth_norm e / inject_Z (len (reference citing)))%Q)
         (rn_citation_data m)).
Proof.
  intros Hb Hc.
  destruct (row_view_to_metrics_total current_year lookup row Hb Hc) as [m Hm].
  exists m. split; [exact Hm|].
  destruct (row_view_to_metrics_inv _ _ _ _ Hm)
    as (year & _ & [H|H] & _ & Ha).
  - destruct H as (Hcs & _ & _ & -> & -> & _).
    rewrite (citing_rows_empty _ _ Hcs).
    split; [reflexivity|]. split; constructor.
  - destruct H as (col & Hne & Hcol & _ & _ & -> & -> & _).
    rewrite (citing_rows_nonempty _ _ Hne).
    apply collect_citations_spec in Hcol as (_ & new & Hd & Hf & Ht).
    cbn in Hd, Ht. rewrite Hd. split; [rewrite Ht; ring|].
    assert (Hentries : Forall2 (fun e citing =>
              rn_bibcode e = cr_bibcode citing /\
              auth_norm e = (1 / inject_Z (author_num m))%Q /\
              ref_norm e = (auth_norm e / inject_Z (cr_reference_num citing))%Q)
              new (lookup (citations row))).
    { rewrite Ha. eapply Forall2_impl; [exact Hf|].
      intros e citing (Hbib & He & _ & _ & Hn). by rewrite He. }
    split; [exact Hentries|].
    intros snapshot Hfetch. rewrite Hfetch in Hentries.
    pose proof (fetch_rows snapshot (citations row)) as Hrows.
    clear Hd Hf Ht. revert Hentries Hrows. generalize (fetch snapshot (citations row)).
    intros rows. induction 1 as [|e citing new' rows' (Hbib & He & Hn) _ IH];
      intros Hrows; [constructor|].
    apply Forall_cons in Hrows as [(r & Hr & ->) Hrows].
    constructor; [|by apply IH].
    split; [exact He|]. exists r. split; [by rewrite Hbib|exact Hn].
Qed.

Lemma rn_citations_is_sum_witness :
  valid_bibcode (bibcode t2) = true /\
  forallb valid_bibcode (cr_bibcode <$> citing_rows mocked_select t2) = true /\
  exists m, row_view_to_metrics 2017 mocked_select t2 = Some m /\
    (rn_citations m == total (ref_norm <$> rn_citation_data m))%Q /\
    (rn_citations m == 6 # 10)%Q /\
    ref_norm <$> rn_citation_data m = [1 # 5; 1 # 5; 1 # 5]%Q /\
    auth_norm <$> rn_citation_data m = [1 # 5; 1 # 5; 1 # 5]%Q.
Proof.
  split; [reflexivity|]. split; [reflexivity|].
  destruct (rn_citations_is_sum 2017 mocked_select t2 eq_refl eq_refl)
    as (m & Hm & Hsum & _).
  exists m. split; [exact Hm|]. split; [exact Hsum|].
  vm_compute in Hm. injection Hm as <-. repeat split.
Defined.

(** C4.  The publication year is the number written by the first four
    characters of the bibcode; age is max(1, current year - publication year
    + 1); and the record the engine produces has
    an_citations = citation_num / age and
    an_refereed_citations = refereed_citation_num / age. *)
Theorem age_normalized_counts current_year lookup row year :
  publication_year (bibcode row) = Some year ->
  forallb valid_bibcode (cr_bibcode <$> citing_rows lookup row) = true ->
  String.length (substring 0 4 (bibcode row)) = 4%nat /\
  digits_value 0 (substring 0 4 (bibcode row)) = Some year /\
  age current_year year = Z.max 1 (current_year - year + 1) /\
  exists m, row_view_to_metrics current_year lookup row = Some m /\
    (an_citations m ==
       inject_Z (citation_num m) / inject_Z (age current_year year))%Q /\
    (an_refereed_citations m ==
       inject_Z (refereed_citation_num m) / inject_Z (age current_year year))%Q.
Proof.
  intros Hy Hc.
  assert (Hp := Hy). unfold publication_year in Hp.
  destruct (Nat.eqb_spec (String.length (substring 0 4 (bibcode row))) 4)
    as [Hl|]; [|done].
  split; [exact Hl|]. split; [exact Hp|]. split; [reflexivity|].
  assert (Hb : valid_bibcode (bibcode row) = true)
    by (unfold valid_bibcode; by rewrite Hy).
  destruct (row_view_to_metrics_total current_year lookup row Hb Hc) as [m Hm].
  exists m. split; [exact Hm|].
  destruct (row_view_to_metrics_inv _ _ _ _ Hm)
    as (year' & Hy' & [H|H] & Hn & _).
  - destruct H as (Hcs & -> & _ & _ & _ & -> & ->). rewrite Hn, Hcs.
    change (len (@nil string)) with 0. split; unfold Qdiv; ring.
  - destruct H as (col & _ & _ & -> & _ & _ & _ & -> & ->).
    rewrite Hn. assert (year' = year) as -> by congruence. split; reflexivity.
Qed.

Lemma age_normalized_counts_witness :
  publication_year (bibcode t2) = Some 1997 /\
  forallb valid_bibcode (cr_bibcode <$> citing_rows mocked_select t2) = true /\
  age 2017 1997 = 21 /\
  exists m, row_view_to_metrics 2017 mocked_select t2 = Some m /\
    (an_citations m == inject_Z (citation_num m) / inject_Z (age 2017 1997))%Q /\
    (an_refereed_citations m ==
       inject_Z (refereed_citation_num m) / inject_Z (age 2017 1997))%Q /\
    (an_refereed_citations m == 2 # 21)%Q.
Proof.
  split; [reflexivity|]. split; [reflexivity|]. split; [reflexivity|].
  destruct (age_normalized_counts 2017 mocked_select t2 1997 eq_refl eq_refl)
    as (_ & _ & _ & m & Hm & Hc & Hr).
  exists m. split; [exact Hm|]. split; [exact Hc|]. split; [exact Hr|].
  vm_compute in Hm. injection Hm as <-. reflexivity.
Defined.

End EngineFacts.

(* ===================================================================== *)
(** ** Further facts about traces *)
(* ===================================================================== *)

Section TraceFacts.
Import Py Run.
Context {A B : Type}.

Lemma outcome_after ev (m : M A) : outcome (after ev m) = outcome m.
Proof. reflexivity. Qed.

Lemma trace_after ev (m : M A) : trace (after ev m) = ev :: trace m.
Proof. reflexivity. Qed.

Lemma calls_app (t1 t2 : list Event) : calls (t1 ++ t2) = calls t1 ++ calls t2.
Proof. unfold calls. apply omap_app. Qed.

Lemma called_app (t1 t2 : list Event) : called (t1 ++ t2) = called t1 ++ called t2.
Proof. unfold called. by rewrite calls_app, fmap_app. Qed.

Lemma store_calls_app (t1 t2 : list Event) :
  store_calls (t1 ++ t2) = store_calls t1 ++ store_calls t2.
Proof. unfold store_calls. by rewrite called_app, List.filter_app. Qed.

Lemma publications_app (t1 t2 : list Event) :
  publications (t1 ++ t2) = publications t1 ++ publications t2.
Proof. unfold publications. apply omap_app. Qed.

Lemma copied_tables_app (t1 t2 : list Event) :
  copied_tables (t1 ++ t2) = copied_tables t1 ++ copied_tables t2.
Proof. unfold copied_tables. apply omap_app. Qed.

Lemma published_publications (tr : list Event) :
  published tr = (publications tr).*2.
Proof.
  induction tr as [|ev tr IH]; [done|].
  change (ev :: tr) with ([ev] ++ tr).
  rewrite published_app, publications_app, fmap_app, IH. f_equal.
  by destruct ev.
Qed.

Lemma for_each_app {S} (xs ys : list A) (s : S) (body : S -> A -> M S) :
  for_each (xs ++ ys) s body =
  for_each xs s body ≫= fun s' => for_each ys s' body.
Proof.
  revert s. induction xs as [|x xs IH]; intros s; cbn [app for_each].
  - by rewrite bind_ret_l.
  - destruct (body s x) as [[e|s'] tr] eqn:E; unfold mbind, M_bind, bind.
    + reflexivity.
    + rewrite IH. unfold mbind, M_bind, bind.
      destruct (for_each xs s' body) as [[e|s''] tr']; [reflexivity|].
      destruct (for_each ys s'' body) as [r tr'']. by rewrite app_assoc.
Qed.

End TraceFacts.

(* ===================================================================== *)
(** ** More on metrics_to_master_pipeline *)
(* ===================================================================== *)

Section ForwardingMore.
Import Py Run Examples.

Lemma called_bind {A B} (m : M A) (k : A -> M B) :
  called (trace (m ≫= k)) =
  called (trace m) ++
    match outcome m with inl _ => [] | inr a => called (trace (k a)) end.
Proof. rewrite trace_bind, called_app. by destruct (outcome m). Qed.

Lemma called_after {A} ev (m : M A) :
  called (trace (after ev m)) = called [ev] ++ called (trace m).
Proof. rewrite trace_after. change (ev :: trace m) with ([ev] ++ trace m). apply called_app. Qed.

Lemma step_called bs tmp row :
  called (trace (metrics_to_master_pipeline_step bs tmp row)) = [].
Proof.
  unfold metrics_to_master_pipeline_step, dict_pop.
  destruct (row !! "id"); [|reflexivity].
  rewrite bind_ret_l. cbn beta iota.
  by destruct (len (tmp ++ [_]) >=? bs).
Qed.

Lemma loop_called bs rows : forall tmp,
  called (trace (for_each rows tmp (metrics_to_master_pipeline_step bs))) = [].
Proof.
  induction rows as [|row rows IH]; intros tmp; [reflexivity|].
  cbn [for_each]. rewrite called_bind, step_called.
  destruct (outcome _); [reflexivity|]. apply IH.
Qed.

Lemma flush_called tmp :
  called (trace (metrics_to_master_pipeline_flush tmp)) = [].
Proof. unfold metrics_to_master_pipeline_flush. by destruct (len tmp >? 0). Qed.

Lemma metrics_calls env schema batch_size :
  called (trace (metrics_to_master_pipeline env schema batch_size)) =
    ["Metrics"; "connect"; "execute"].
Proof.
  unfold metrics_to_master_pipeline. cbv zeta.
  rewrite lookup_metrics, bind_ret_l. unfold call_method.
  rewrite !bind_call, !called_after, called_bind, loop_called.
  destruct (outcome _); [reflexivity|]. by rewrite flush_called.
Qed.

(** X1.  Whatever the table holds and whatever the batch size, and also
    when a row makes it stop with KeyError, metrics_to_master_pipeline makes
    exactly three library calls: it constructs the Metrics object, opens a
    connection and executes the select.  It never closes the connection and
    never calls anything that writes. *)
Theorem metrics_to_master_pipeline_calls env schema batch_size :
  called (trace (metrics_to_master_pipeline env schema batch_size)) =
    ["Metrics"; "connect"; "execute"].
Proof. apply metrics_calls. Qed.

(** The facts about a run over rows that all have an id, gathered: the
    messages are full batches followed by what is left, if anything. *)
Lemma metrics_run_shape env schema batch_size :
  1 <= batch_size ->
  Forall has_id (metrics_table_rows env schema) ->
  exists full rest,
    published (trace (metrics_to_master_pipeline env schema batch_size)) =
      full ++ (if len rest >? 0 then [rest] else []) /\
    outcome (metrics_to_master_pipeline env schema batch_size) = inr tt /\
    Forall (fun batch => len batch = batch_size) full /\
    0 <= len rest < batch_size /\
    concat full ++ rest = forwarded <$> metrics_table_rows env schema /\
    len (metrics_table_rows env schema) = batch_size * len full + len rest.
Proof.
  intros Hbs Hids.
  destruct (metrics_to_master_pipeline_unfold env schema batch_size) as [Hp Ho].
  cbn zeta in Hp, Ho.
  set (rows := metrics_table_rows env schema) in *.
  assert (Hz : len (@nil PyVal) < batch_size) by (change (0 < batch_size); lia).
  destruct (loop_sizes batch_size rows Hbs [] Hz) as [Hfull Hrest].
  destruct (loop_content batch_size rows Hids []) as (rest & Hor & Hc).
  cbn zeta in Hfull, Hrest, Hor, Hc.
  change ([] ++ map forwarded rows) with (forwarded <$> rows) in Hc.
  rewrite Hor in Hp, Ho.
  exists (published (trace (for_each rows [] (metrics_to_master_pipeline_step batch_size)))), rest.
  split; [exact Hp|]. split; [exact Ho|]. split; [exact Hfull|].
  specialize (Hrest rest Hor).
  split; [unfold len in *; lia|]. split; [exact Hc|].
  rewrite <- (len_concat_uniform batch_size _ Hfull).
  apply (f_equal len) in Hc. unfold len in *.
  rewrite length_app, length_fmap in Hc. lia.
Qed.

(** X2.  For a batch size of at least one and rows that all have an id,
    metrics_to_master_pipeline returns normally and publishes
    ceil(rows / batch_size) messages; in particular none for an empty
    table. *)
Theorem metrics_message_count env schema batch_size :
  1 <= batch_size ->
  Forall has_id (metrics_table_rows env schema) ->
  outcome (metrics_to_master_pipeline env schema batch_size) = inr tt /\
  len (published (trace (metrics_to_master_pipeline env schema batch_size))) =
    (len (metrics_table_rows env schema) + batch_size - 1) / batch_size.
Proof.
  intros Hbs Hids.
  destruct (metrics_run_shape env schema batch_size Hbs Hids)
    as (full & rest & -> & Ho & _ & Hrest & _ & Hlen).
  split; [exact Ho|]. rewrite Hlen.
  destruct (Z.gtb_spec (len rest) 0) as [Hpos|Hzero].
  - unfold len at 1. rewrite length_app. cbn [length].
    rewrite Nat2Z.inj_add. fold (len full). change (Z.of_nat 1) with 1.
    apply (Z.div_unique_pos _ _ _ (len rest - 1)); lia.
  - rewrite app_nil_r.
    apply (Z.div_unique_pos _ _ _ (batch_size - 1)); lia.
Qed.

Lemma metrics_message_count_witness :
  1 <= 2 /\ Forall has_id (metrics_table_rows store (VStr "metrics")) /\
  len (metrics_table_rows store (VStr "metrics")) = 3 /\
  len (published (trace (metrics_to_master_pipeline store (VStr "metrics") 2))) =
    (len (metrics_table_rows store (VStr "metrics")) + 2 - 1) / 2.
Proof.
  assert (H1 : 1 <= 2) by lia.
  assert (H2 : Forall has_id (metrics_table_rows store (VStr "metrics")))
    by (repeat constructor; eexists; reflexivity).
  split; [exact H1|]. split; [exact H2|]. split; [reflexivity|].
  exact (proj2 (metrics_message_count store (VStr "metrics") 2 H1 H2)).
Defined.

Lemma loop_singletons bs rows :
  bs <= 1 -> Forall has_id rows ->
  let loop := for_each rows [] (metrics_to_master_pipeline_step bs) in
  outcome loop = inr [] /\
  published (trace loop) = (fun row => [forwarded row]) <$> rows.
Proof.
  intros Hbs. induction 1 as [|row rows Hid _ IH]; cbn zeta; [done|].
  cbn [for_each]. rewrite published_bind, outcome_bind.
  assert (Hle : bs <= len ([] ++ [forwarded row])) by (change (bs <= 1); lia).
  destruct (step_full bs [] row Hid Hle) as [-> ->].
  destruct IH as [-> ->]. done.
Qed.

(** X3.  With the default batch size of 1, and with any smaller one (zero
    or negative), every row that has an id is published as a message of its
    own, in table order, and nothing is left for a final message. *)
Theorem metrics_one_message_per_row env schema batch_size :
  batch_size <= 1 ->
  Forall has_id (metrics_table_rows env schema) ->
  outcome (metrics_to_master_pipeline env schema batch_size) = inr tt /\
  published (trace (metrics_to_master_pipeline env schema batch_size)) =
    (fun row => [_data (MetricsRecord (delete "id" row))]) <$>
      metrics_table_rows env schema.
Proof.
  intros Hbs Hids.
  destruct (metrics_to_master_pipeline_unfold env schema batch_size) as [Hp Ho].
  destruct (loop_singletons batch_size _ Hbs Hids) as [Hlo Hlp].
  cbn zeta in Hp, Ho, Hlo, Hlp. rewrite Hlo in Hp, Ho. rewrite Hlp in Hp.
  split; [exact Ho|]. rewrite Hp. cbn. by rewrite app_nil_r.
Qed.

Lemma metrics_one_message_per_row_witness :
  1 <= 1 /\ Forall has_id (metrics_table_rows store (VStr "metrics")) /\
  published (trace (metrics_to_master_pipeline store (VStr "metrics") 1)) =
    (fun row => [_data (MetricsRecord (delete "id" row))]) <$> three_rows.
Proof.
  assert (H1 : 1 <= 1) by lia.
  assert (H2 : Forall has_id (metrics_table_rows store (VStr "metrics")))
    by (repeat constructor; eexists; reflexivity).
  split; [exact H1|]. split; [exact H2|].
  exact (proj2 (metrics_one_message_per_row store (VStr "metrics") 1 H1 H2)).
Defined.

(** X4.  When the table holds at least one row and no more than batch_size
    rows (all with an id), exactly one message is published, and it holds
    every row, in table order. *)
Theorem metrics_single_message env schema batch_size :
  1 <= len (metrics_table_rows env schema) <= batch_size ->
  Forall has_id (metrics_table_rows env schema) ->
  published (trace (metrics_to_master_pipeline env schema batch_size)) =
    [(fun row => _data (MetricsRecord (delete "id" row))) <$>
       metrics_table_rows env schema].
Proof.
  intros Hn Hids. assert (Hbs : 1 <= batch_size) by lia.
  destruct (metrics_run_shape env schema batch_size Hbs Hids)
    as (full & rest & -> & _ & Hfull & Hrest & Hc & Hlen).
  change (fun row => _data (MetricsRecord (delete "id" row))) with forwarded.
  assert (Hf : 0 <= len full) by (unfold len; lia).
  destruct full as [|b full].
  - cbn [concat app] in *. subst rest.
    destruct (Z.gtb_spec (len (forwarded <$> metrics_table_rows env schema)) 0);
      [reflexivity|].
    unfold len in *. rewrite length_fmap in *. lia.
  - assert (Hfl : 0 <= len full) by (unfold len; lia).
    assert (Hcons : len (b :: full) = len full + 1)
      by (unfold len; cbn [length]; lia).
    rewrite Hcons in Hlen.
    assert (len full = 0 /\ len rest = 0) as [H0 Hr0] by nia.
    destruct full; [|unfold len in H0; cbn in H0; lia].
    destruct rest; [|unfold len in Hr0; cbn in Hr0; lia].
    cbn in Hc. rewrite !app_nil_r in Hc. subst b. reflexivity.
Qed.

Lemma metrics_single_message_witness :
  1 <= len (metrics_table_rows store (VStr "metrics")) <= 5 /\
  published (trace (metrics_to_master_pipeline store (VStr "metrics") 5)) =
    [(fun row => _data (MetricsRecord (delete "id" row))) <$> three_rows].
Proof.
  assert (H1 : 1 <= len (metrics_table_rows store (VStr "metrics")) <= 5)
    by (change (1 <= 3 <= 5); lia).
  assert (H2 : Forall has_id (metrics_table_rows store (VStr "metrics")))
    by (repeat constructor; eexists; reflexivity).
  split; [exact H1|].
  exact (metrics_single_message store (VStr "metrics") 5 H1 H2).
Defined.

(** X5.  A row without an id stops metrics_to_master_pipeline with KeyError
    at that row.  The full batches made of the rows before it have been
    published and stay published; the records read since the last full
    batch, fewer than batch_size, are never published; no later row is
    forwarded. *)
Theorem metrics_row_without_id env schema batch_size good bad rest :
  1 <= batch_size ->
  metrics_table_rows env schema = good ++ bad :: rest ->
  Forall has_id good ->
  bad !! "id" = None ->
  outcome (metrics_to_master_pipeline env schema batch_size) =
    inl (KeyError "id") /\
  Forall (fun batch => len batch = batch_size)
    (published (trace (metrics_to_master_pipeline env schema batch_size))) /\
  exists lost,
    concat (published (trace (metrics_to_master_pipeline env schema batch_size)))
      ++ lost = (fun row => _data (MetricsRecord (delete "id" row))) <$> good /\
    len lost < batch_size.
Proof.
  intros Hbs Hrows Hgood Hbad.
  destruct (metrics_to_master_pipeline_unfold env schema batch_size) as [Hp Ho].
  cbn zeta in Hp, Ho. rewrite Hrows in Hp, Ho. rewrite Hp, Ho. clear Hp Ho.
  rewrite for_each_app. rewrite published_bind, outcome_bind.
  assert (Hz : len (@nil PyVal) < batch_size) by (change (0 < batch_size); lia).
  destruct (loop_sizes batch_size good Hbs [] Hz) as [Hfull Hlt].
  destruct (loop_content batch_size good Hgood []) as (lost & Hol & Hc).
  cbn zeta in Hfull, Hlt, Hol, Hc. rewrite Hol.
  cbn [for_each]. rewrite (step_no_id _ _ _ Hbad).
  change (raise (KeyError "id") ≫= _) with (@raise (list PyVal) (KeyError "id")).
  cbn [outcome trace raise fst snd published omap]. rewrite !app_nil_r.
  split; [reflexivity|]. split; [exact Hfull|].
  exists lost. split; [exact Hc|]. by apply Hlt.
Qed.

Lemma metrics_row_without_id_witness :
  1 <= 2 /\
  metrics_table_rows store_with_gap (VStr "metrics") =
    three_rows ++ {[ "bibcode" := VStr "2004NoId...........X" ]}
                  :: [metrics_row 5 "2005ASPC..295..361M"] /\
  outcome (metrics_to_master_pipeline store_with_gap (VStr "metrics") 2) =
    inl (KeyError "id") /\
  len <$> published (trace (metrics_to_master_pipeline store_with_gap
                              (VStr "metrics") 2)) = [2].
Proof.
  assert (H1 : 1 <= 2) by lia.
  assert (H2 : metrics_table_rows store_with_gap (VStr "metrics") =
               three_rows ++ {[ "bibcode" := VStr "2004NoId...........X" ]}
                             :: [metrics_row 5 "2005ASPC..295..361M"])
    by reflexivity.
  assert (H3 : Forall has_id three_rows)
    by (repeat constructor; eexists; reflexivity).
  assert (H4 : ({[ "bibcode" := VStr "2004NoId...........X" ]} : Row) !! "id" = None)
    by reflexivity.
  split; [exact H1|]. split; [exact H2|]. split; [|reflexivity].
  exact (proj1 (metrics_row_without_id store_with_gap (VStr "metrics") 2
                  _ _ _ H1 H2 H3 H4)).
Defined.


End ForwardingMore.

(* ===================================================================== *)
(** ** load_column_files *)
(* ===================================================================== *)

Section LoadColumnFiles.
Import Py Run Examples.

Lemma for_each_unit_ok {A} (xs : list A) (body : unit -> A -> M unit) :
  Forall (fun x => outcome (body tt x) = inr tt) xs ->
  outcome (for_each xs tt body) = inr tt /\
  trace (for_each xs tt body) = concat ((fun x => trace (body tt x)) <$> xs).
Proof.
  induction 1 as [|x xs Hx _ [IHo IHt]]; [done|].
  cbn [for_each]. rewrite outcome_bind, trace_bind, Hx, IHo, IHt. done.
Qed.

Lemma for_each_unit_stop {A} (done : list A) (x : A) (rest : list A)
    (body : unit -> A -> M unit) e :
  Forall (fun x => outcome (body tt x) = inr tt) done ->
  outcome (body tt x) = inl e ->
  outcome (for_each (done ++ x :: rest) tt body) = inl e /\
  trace (for_each (done ++ x :: rest) tt body) =
    concat ((fun x => trace (body tt x)) <$> done) ++ trace (body tt x).
Proof.
  intros Hdone Hx. rewrite for_each_app, outcome_bind, trace_bind.
  destruct (for_each_unit_ok done body Hdone) as [-> ->].
  cbn [for_each]. rewrite outcome_bind, trace_bind, Hx. by rewrite app_nil_r.
Qed.

Lemma called_concat {A} (f : A -> list Event) (xs : list A) :
  called (concat (f <$> xs)) = concat ((fun x => called (f x)) <$> xs).
Proof.
  induction xs as [|x xs IH]; [reflexivity|].
  cbn [fmap list_fmap concat]. by rewrite called_app, IH.
Qed.

Lemma copied_tables_concat {A} (f : A -> list Event) (xs : list A) :
  copied_tables (concat (f <$> xs)) =
  concat ((fun x => copied_tables (f x)) <$> xs).
Proof.
  induction xs as [|x xs IH]; [reflexivity|].
  cbn [fmap list_fmap concat]. by rewrite copied_tables_app, IH.
Qed.

Lemma concat_singletons {A B} (f : A -> B) (xs : list A) :
  concat ((fun x => [f x]) <$> xs) = f <$> xs.
Proof. induction xs as [|x xs IH]; [reflexivity|]. cbn. by f_equal. Qed.

Lemma read_files_app (t1 t2 : list Event) :
  read_files (t1 ++ t2) = read_files t1 ++ read_files t2.
Proof. unfold read_files. apply omap_app. Qed.

Lemma read_files_concat {A} (f : A -> list Event) (xs : list A) :
  read_files (concat (f <$> xs)) = concat ((fun x => read_files (f x)) <$> xs).
Proof.
  induction xs as [|x xs IH]; [reflexivity|].
  cbn [fmap list_fmap concat]. by rewrite read_files_app, IH.
Qed.

(** The loop body up to the first read of the configuration: the table
    name is a sum with an attribute of sql_sync, and is logged. *)
Lemma load_type_start env config sql_sync raw_conn cur t :
  load_type env (VDict config) sql_sync raw_conn cur tt t =
  after (EvLog "info" [format "processing {}" [table_name sql_sync t]])
    (data_path ← subscript config "DATA_PATH";
     file ← subscript config (upper t);
     filename ← py_add data_path file;
     r ← (if String.eqb t "canonical" then
            call (VAttr (VGlobal "reader") "BibcodeFileReader") [filename]
          else if String.eqb t "refereed" then
            call (VAttr (VGlobal "reader") "RefereedFileReader") [filename]
          else
            call (VAttr (VGlobal "reader") "StandardFileReader") [VStr t; filename]);
     if reader_truthy env r then
       call_method cur "copy_from" [r; table_name sql_sync t];;
       call_method raw_conn "commit" [];;
       ret tt
     else ret tt).
Proof.
  unfold load_type.
  cbn [py_add is_library_object orb]. rewrite bind_ret_l.
  cbn [py_add is_library_object orb]. rewrite bind_ret_l.
  unfold log. rewrite bind_emit. reflexivity.
Qed.

(** A type whose file the configuration names by two texts. *)
Lemma load_type_ok env config sql_sync raw_conn cur t :
  (forall r, reader_truthy env r = true) ->
  text_at config "DATA_PATH" ->
  text_at config (upper t) ->
  let run := load_type env (VDict config) sql_sync raw_conn cur tt t in
  outcome run = inr tt /\
  called (trace run) = [reader_class t; "copy_from"; "commit"] /\
  copied_tables (trace run) = [table_name sql_sync t] /\
  read_files (trace run) = [column_file config t].
Proof.
  intros Htruthy [dp Hdp] [f Hf]. cbv zeta. rewrite load_type_start.
  rewrite outcome_after, trace_after.
  unfold column_file, subscript, call_method, reader_class.
  rewrite Hdp, Hf. rewrite !bind_ret_l. cbn [py_add is_library_object orb].
  rewrite bind_ret_l.
  destruct (String.eqb t "canonical"); [|destruct (String.eqb t "refereed")];
    rewrite bind_call, Htruthy, !bind_call; repeat split.
Qed.

(** A type whose key is missing from the configuration. *)
Lemma load_type_missing env config sql_sync raw_conn cur t :
  is_Some (config !! "DATA_PATH") ->
  config !! upper t = None ->
  let run := load_type env (VDict config) sql_sync raw_conn cur tt t in
  outcome run = inl (KeyError (upper t)) /\
  called (trace run) = [] /\ copied_tables (trace run) = [].
Proof.
  intros [dp Hdp] Hf. cbv zeta. rewrite load_type_start.
  rewrite outcome_after, trace_after. unfold subscript. rewrite Hdp, Hf.
  rewrite !bind_ret_l. repeat split.
Qed.

(** A type whose entry, or DATA_PATH, is there but is not text while the
    other is: the sum at line 32 raises TypeError before any reader is
    built. *)
Lemma load_type_not_text env config sql_sync raw_conn cur t dp f :
  config !! "DATA_PATH" = Some dp ->
  config !! upper t = Some f ->
  is_library_object dp = false ->
  is_library_object f = false ->
  (kind_of dp = KText /\ kind_of f <> KText) \/
  (kind_of dp <> KText /\ kind_of f = KText) ->
  let run := load_type env (VDict config) sql_sync raw_conn cur tt t in
  outcome run = inl (TypeError "unsupported operand type(s) for +") /\
  called (trace run) = [] /\ copied_tables (trace run) = [].
Proof.
  intros Hdp Hf Hldp Hlf Hkinds. cbv zeta. rewrite load_type_start.
  rewrite outcome_after, trace_after. unfold subscript. rewrite Hdp, Hf.
  rewrite !bind_ret_l. unfold py_add. rewrite Hldp, Hlf. cbn [orb].
  destruct Hkinds as [[H1 H2]|[H1 H2]];
    destruct dp; try discriminate; try done;
    destruct f; try discriminate; try done; repeat split.
Qed.


(** The shape of a call of load_column_files with four arguments: two
    calls, the loop, and three calls when the loop ends normally. *)
Lemma load_column_files_shape env config e c sql_sync :
  let raw_conn := VCall (VAttr e "raw_connection") [] ∅ in
  let cur := VCall (VAttr raw_conn "cursor") [] ∅ in
  let loop := for_each (all_types env) tt
                (load_type env (VDict config) sql_sync raw_conn cur) in
  outcome (load_column_files env [VDict config; e; c; sql_sync]) =
    match outcome loop with
    | inl e => inl e
    | inr _ => inr tt
    end /\
  trace (load_column_files env [VDict config; e; c; sql_sync]) =
    [EvCall (VAttr e "raw_connection") []; EvCall (VAttr raw_conn "cursor") []]
    ++ trace loop
    ++ match outcome loop with
       | inl _ => []
       | inr _ => [EvCall (VAttr cur "close") [];
                   EvCall (VAttr raw_conn "close") [];
                   EvCall (VAttr sql_sync "create_joined_rows") [c]]
       end.
Proof.
  cbv zeta. unfold load_column_files. unfold call_method.
  rewrite !bind_call. split.
  - rewrite !outcome_after, outcome_bind. by destruct (outcome (for_each _ _ _)).
  - rewrite !trace_after, trace_bind. cbn [app]. do 2 f_equal;
      try by destruct (outcome (for_each _ _ _)).
Qed.

Lemma load_column_files_ok env config e c sql_sync :
  (forall r, reader_truthy env r = true) ->
  text_at config "DATA_PATH" ->
  Forall (fun t => text_at config (upper t)) (all_types env) ->
  outcome (load_column_files env [VDict config; e; c; sql_sync]) = inr tt /\
  called (trace (load_column_files env [VDict config; e; c; sql_sync])) =
    ["raw_connection"; "cursor"]
    ++ concat ((fun t => [reader_class t; "copy_from"; "commit"]) <$> all_types env)
    ++ ["close"; "close"; "create_joined_rows"] /\
  copied_tables (trace (load_column_files env [VDict config; e; c; sql_sync])) =
    table_name sql_sync <$> all_types env /\
  read_files (trace (load_column_files env [VDict config; e; c; sql_sync])) =
    column_file config <$> all_types env.
Proof.
  intros Htr Hdp Hkeys.
  destruct (load_column_files_shape env config e c sql_sync) as (Ho & Ht).
  cbv zeta in Ho, Ht.
  set (body := load_type env (VDict config) sql_sync _ _) in *.
  assert (Hok : Forall (fun t =>
            outcome (body tt t) = inr tt /\
            called (trace (body tt t)) = [reader_class t; "copy_from"; "commit"] /\
            copied_tables (trace (body tt t)) = [table_name sql_sync t] /\
            read_files (trace (body tt t)) = [column_file config t]) (all_types env)).
  { eapply Forall_impl; [exact Hkeys|]. intros t Hk.
    by apply (load_type_ok env config sql_sync). }
  assert (Hall : Forall (fun t => outcome (body tt t) = inr tt) (all_types env)).
  { eapply Forall_impl; [exact Hok|]. by intros t [H _]. }
  destruct (for_each_unit_ok _ body Hall) as [Hlo Hlt].
  rewrite Hlo in Ho, Ht. rewrite Hlt in Ht. rewrite Ho, Ht. clear Ho Ht Hlo Hlt Hall.
  split; [reflexivity|]. split; [|split].
  - rewrite !called_app, called_concat. f_equal. f_equal. f_equal.
    apply Forall_fmap_ext_1. eapply Forall_impl; [exact Hok|].
    by intros t (_ & H & _).
  - rewrite !copied_tables_app, copied_tables_concat.
    assert (Hext : (fun x => copied_tables (trace (body tt x))) <$> all_types env =
                   (fun t => [table_name sql_sync t]) <$> all_types env).
    { apply Forall_fmap_ext_1. eapply Forall_impl; [exact Hok|].
      by intros t (_ & _ & H & _). }
    rewrite Hext, concat_singletons. cbn. by rewrite app_nil_r.
  - rewrite !read_files_app, read_files_concat.
    assert (Hext : (fun x => read_files (trace (body tt x))) <$> all_types env =
                   (fun t => [column_file config t]) <$> all_types env).
    { apply Forall_fmap_ext_1. eapply Forall_impl; [exact Hok|].
      by intros t (_ & _ & _ & H). }
    rewrite Hext, concat_singletons. cbn. by rewrite app_nil_r.
Qed.

(** X6.  Called with an engine and a NonBib object of the libraries, as
    main calls it: when the configuration holds text under DATA_PATH and,
    for every type of NonBib.all_types, under the key that is the type's
    name in upper case, and every reader object is true, load_column_files
    returns normally; it builds one reader per type (BibcodeFileReader for
    canonical, RefereedFileReader for refereed, StandardFileReader
    otherwise) on the file named by DATA_PATH followed by the type's entry,
    copies it into the table schema.type and commits, type by type in the
    order of all_types, then closes cursor and connection and creates the
    joined rows. *)
Theorem load_column_files_loads_every_type env config e c sql_sync :
  is_library_object e = true ->
  is_library_object sql_sync = true ->
  (forall r, reader_truthy env r = true) ->
  text_at config "DATA_PATH" ->
  Forall (fun t => text_at config (upper t)) (all_types env) ->
  outcome (load_column_files env [VDict config; e; c; sql_sync]) = inr tt /\
  called (trace (load_column_files env [VDict config; e; c; sql_sync])) =
    ["raw_connection"; "cursor"]
    ++ concat ((fun t => [reader_class t; "copy_from"; "commit"]) <$> all_types env)
    ++ ["close"; "close"; "create_joined_rows"] /\
  copied_tables (trace (load_column_files env [VDict config; e; c; sql_sync])) =
    table_name sql_sync <$> all_types env /\
  read_files (trace (load_column_files env [VDict config; e; c; sql_sync])) =
    column_file config <$> all_types env.
Proof. intros _ _. apply load_column_files_ok. Qed.

Lemma load_column_files_loads_every_type_witness :
  let e := main_nonbib_db_engine column_config in
  let c := main_nonbib_db_conn column_config in
  (forall r, reader_truthy store r = true) /\
  text_at column_config "DATA_PATH" /\
  Forall (fun t => text_at column_config (upper t)) (all_types store) /\
  outcome (load_column_files store [VDict column_config; e; c; sql_sync]) =
    inr tt /\
  called (trace (load_column_files store [VDict column_config; e; c; sql_sync])) =
    ["raw_connection"; "cursor";
     "BibcodeFileReader"; "copy_from"; "commit";
     "StandardFileReader"; "copy_from"; "commit";
     "RefereedFileReader"; "copy_from"; "commit";
     "close"; "close"; "create_joined_rows"] /\
  read_files (trace (load_column_files store [VDict column_config; e; c; sql_sync])) =
    [VStr "/data/bibcodes.list.can"; VStr "/data/facet_authors/all.links";
     VStr "/data/refereed/all.links"].
Proof.
  cbv zeta.
  assert (H1 : forall r, reader_truthy store r = true) by reflexivity.
  assert (H2 : text_at column_config "DATA_PATH") by (eexists; reflexivity).
  assert (H3 : Forall (fun t => text_at column_config (upper t)) (all_types store))
    by (repeat constructor; eexists; reflexivity).
  split; [exact H1|]. split; [exact H2|]. split; [exact H3|].
  destruct (load_column_files_loads_every_type store column_config
              (main_nonbib_db_engine column_config)
              (main_nonbib_db_conn column_config) sql_sync eq_refl eq_refl
              H1 H2 H3)
    as (Ho & Hc & _ & Hf).
  split; [exact Ho|]. split; [exact Hc|exact Hf].
Defined.


(** X7.  Called with an engine and a NonBib object of the libraries: when
    the configuration names the files of the first types by text and then
    lacks the key of a type, load_column_files stops with KeyError
    for that key.  The types before it in all_types have been copied and
    committed and stay so; the cursor and the raw connection are not closed
    and the joined rows are not created.  An entry that is there but is not
    text (None, a number, a list, a dict), under DATA_PATH that is text,
    stops the function in the same way with the TypeError of the sum at
    line 32. *)
Theorem load_column_files_missing_type_key env config e c sql_sync
    loaded t later :
  is_library_object e = true ->
  is_library_object sql_sync = true ->
  (forall r, reader_truthy env r = true) ->
  text_at config "DATA_PATH" ->
  all_types env = loaded ++ t :: later ->
  Forall (fun t => text_at config (upper t)) loaded ->
  let run := load_column_files env [VDict config; e; c; sql_sync] in
  (config !! upper t = None -> outcome run = inl (KeyError (upper t))) /\
  (forall f, config !! upper t = Some f ->
     is_library_object f = false -> kind_of f <> KText ->
     outcome run = inl (TypeError "unsupported operand type(s) for +")) /\
  ((config !! upper t = None \/
    exists f, config !! upper t = Some f /\
      is_library_object f = false /\ kind_of f <> KText) ->
   called (trace run) =
     ["raw_connection"; "cursor"]
     ++ concat ((fun t => [reader_class t; "copy_from"; "commit"]) <$> loaded) /\
   copied_tables (trace run) = table_name sql_sync <$> loaded).
Proof.
  intros _ _ Htr Hdp Htypes Hkeys. cbv zeta.
  destruct (load_column_files_shape env config e c sql_sync) as (Ho & Ht).
  cbv zeta in Ho, Ht.
  set (body := load_type env (VDict config) sql_sync _ _) in *.
  assert (Hok : Forall (fun t =>
            outcome (body tt t) = inr tt /\
            called (trace (body tt t)) = [reader_class t; "copy_from"; "commit"] /\
            copied_tables (trace (body tt t)) = [table_name sql_sync t] /\
            read_files (trace (body tt t)) = [column_file config t]) loaded).
  { eapply Forall_impl; [exact Hkeys|]. intros t' Hk.
    by apply (load_type_ok env config sql_sync). }
  assert (Hall : Forall (fun t => outcome (body tt t) = inr tt) loaded).
  { eapply Forall_impl; [exact Hok|]. by intros t' [H _]. }
  assert (Hstop : forall ex,
            outcome (body tt t) = inl ex ->
            called (trace (body tt t)) = [] ->
            copied_tables (trace (body tt t)) = [] ->
            outcome (load_column_files env [VDict config; e; c; sql_sync]) = inl ex /\
            called (trace (load_column_files env [VDict config; e; c; sql_sync])) =
              ["raw_connection"; "cursor"]
              ++ concat ((fun t => [reader_class t; "copy_from"; "commit"]) <$> loaded) /\
            copied_tables (trace (load_column_files env [VDict config; e; c; sql_sync])) =
              table_name sql_sync <$> loaded).
  { intros ex Hbo Hbc Hbt.
    destruct (for_each_unit_stop loaded t later body _ Hall Hbo) as [Hlo Hlt].
    rewrite Htypes in Ho, Ht. rewrite Hlo in Ho, Ht. rewrite Hlt in Ht.
    rewrite Ho, Ht.
    split; [reflexivity|]. split.
    - rewrite !called_app, called_concat, Hbc, !app_nil_r. f_equal. f_equal.
      apply Forall_fmap_ext_1. eapply Forall_impl; [exact Hok|].
      by intros t' (_ & H & _).
    - rewrite !copied_tables_app, copied_tables_concat, Hbt, !app_nil_r.
      assert (Hext : (fun x => copied_tables (trace (body tt x))) <$> loaded =
                     (fun t => [table_name sql_sync t]) <$> loaded).
      { apply Forall_fmap_ext_1. eapply Forall_impl; [exact Hok|].
        by intros t' (_ & _ & H & _). }
      by rewrite Hext, concat_singletons. }
  assert (Hmissing : config !! upper t = None ->
            outcome (body tt t) = inl (KeyError (upper t)) /\
            called (trace (body tt t)) = [] /\ copied_tables (trace (body tt t)) = []).
  { intros Hmiss. apply (load_type_missing env config sql_sync); [|exact Hmiss].
    destruct Hdp as [dp Hdp]. by eexists. }
  assert (Hnot_text : forall f, config !! upper t = Some f ->
            is_library_object f = false -> kind_of f <> KText ->
            outcome (body tt t) = inl (TypeError "unsupported operand type(s) for +") /\
            called (trace (body tt t)) = [] /\ copied_tables (trace (body tt t)) = []).
  { intros f Hf Hlf Hkf. destruct Hdp as [dp Hdp].
    apply (load_type_not_text env config sql_sync _ _ t (VStr dp) f);
      [exact Hdp|exact Hf|reflexivity|exact Hlf|]. left. by split. }
  split; [|split].
  - intros Hmiss. destruct (Hmissing Hmiss) as (Hbo & Hbc & Hbt).
    by destruct (Hstop _ Hbo Hbc Hbt) as [H _].
  - intros f Hf Hlf Hkf. destruct (Hnot_text f Hf Hlf Hkf) as (Hbo & Hbc & Hbt).
    by destruct (Hstop _ Hbo Hbc Hbt) as [H _].
  - intros [Hmiss|(f & Hf & Hlf & Hkf)].
    + destruct (Hmissing Hmiss) as (Hbo & Hbc & Hbt).
      by destruct (Hstop _ Hbo Hbc Hbt) as [_ H].
    + destruct (Hnot_text f Hf Hlf Hkf) as (Hbo & Hbc & Hbt).
      by destruct (Hstop _ Hbo Hbc Hbt) as [_ H].
Qed.

Lemma load_column_files_missing_type_key_witness :
  let e := main_nonbib_db_engine column_config_short in
  let c := main_nonbib_db_conn column_config_short in
  (column_config_short !! upper "refereed" = None /\
   outcome (load_column_files store [VDict column_config_short; e; c; sql_sync]) =
     inl (KeyError "REFEREED") /\
   called (trace (load_column_files store [VDict column_config_short; e; c; sql_sync])) =
     ["raw_connection"; "cursor"; "BibcodeFileReader"; "copy_from"; "commit";
      "StandardFileReader"; "copy_from"; "commit"]) /\
  (column_config_none !! upper "refereed" = Some VNone /\
   outcome (load_column_files store [VDict column_config_none; e; c; sql_sync]) =
     inl (TypeError "unsupported operand type(s) for +") /\
   called (trace (load_column_files store [VDict column_config_none; e; c; sql_sync])) =
     ["raw_connection"; "cursor"; "BibcodeFileReader"; "copy_from"; "commit";
      "StandardFileReader"; "copy_from"; "commit"]).
Proof.
  cbv zeta.
  assert (H1 : forall r, reader_truthy store r = true) by reflexivity.
  assert (H3 : all_types store = ["canonical"; "author"] ++ "refereed" :: [])
    by reflexivity.
  split.
  - assert (H2 : text_at column_config_short "DATA_PATH")
      by (eexists; reflexivity).
    assert (H4 : Forall (fun t => text_at column_config_short (upper t))
                   ["canonical"; "author"])
      by (repeat constructor; eexists; reflexivity).
    assert (H5 : column_config_short !! upper "refereed" = None) by reflexivity.
    split; [exact H5|].
    destruct (load_column_files_missing_type_key store column_config_short
                (main_nonbib_db_engine column_config_short)
                (main_nonbib_db_conn column_config_short) sql_sync _ _ _
                eq_refl eq_refl H1 H2 H3 H4)
      as (Ho & _ & Hc).
    split; [exact (Ho H5)|exact (proj1 (Hc (or_introl H5)))].
  - assert (H2 : text_at column_config_none "DATA_PATH")
      by (eexists; reflexivity).
    assert (H4 : Forall (fun t => text_at column_config_none (upper t))
                   ["canonical"; "author"])
      by (repeat constructor; eexists; reflexivity).
    assert (H5 : column_config_none !! upper "refereed" = Some VNone) by reflexivity.
    split; [exact H5|].
    destruct (load_column_files_missing_type_key store column_config_none
                (main_nonbib_db_engine column_config_short)
                (main_nonbib_db_conn column_config_short) sql_sync _ _ _
                eq_refl eq_refl H1 H2 H3 H4)
      as (_ & Ho & Hc).
    split; [exact (Ho VNone H5 eq_refl ltac:(discriminate))|].
    refine (proj1 (Hc (or_intror (ex_intro _ VNone _)))).
    split; [exact H5|]. split; [reflexivity|discriminate].
Defined.





End LoadColumnFiles.

(* ===================================================================== *)
(** ** diagnose_nonbib and diagnose_metrics *)
(* ===================================================================== *)

Section Diagnose.
Import Py Run Examples.

Ltac split_keys H :=
  repeat match type of H with
         | Forall _ (_ :: _) =>
             let v := fresh "v" in let Hv := fresh "Hv" in
             apply Forall_cons_1 in H as [[v Hv] H]
         end.

Ltac run_prints :=
  unfold diagnose_nonbib, diagnose_metrics, print_queue_configuration,
    subscript, print, delay;
  repeat first
    [ rewrite bind_ret_l | rewrite bind_emit
    | match goal with H : ?c !! ?k = _ |- context [?c !! ?k] => rewrite H end ].

Lemma diagnose_with_keys config :
  Forall (fun k => is_Some (config !! k)) queue_configuration_keys ->
  (outcome (diagnose_nonbib config) = inr tt /\
   publications (trace (diagnose_nonbib config)) =
     [("task_output_results", [_data (NonBibRecord diagnose_nonbib_test_data)])] /\
   len (printed (trace (diagnose_nonbib config))) = 8 /\
   calls (trace (diagnose_nonbib config)) = []) /\
  (outcome (diagnose_metrics config) = inr tt /\
   publications (trace (diagnose_metrics config)) =
     [("task_output_metrics", [_data (MetricsRecord diagnose_metrics_test_data)])] /\
   len (printed (trace (diagnose_metrics config))) = 8 /\
   calls (trace (diagnose_metrics config)) = []).
Proof.
  intros H. unfold queue_configuration_keys in H. split_keys H.
  split.
  - run_prints. repeat split.
  - run_prints. repeat split.
Qed.

(** X9.  With the seven configuration keys they print present, each of
    diagnose_nonbib and diagnose_metrics prints its eight lines, publishes
    exactly one message holding its one hard-coded record (on
    task_output_results and task_output_metrics respectively) and returns;
    neither makes any library call, so neither touches a database. *)
Theorem diagnose_publishes_one_record config :
  Forall (fun k => is_Some (config !! k)) queue_configuration_keys ->
  (outcome (diagnose_nonbib config) = inr tt /\
   publications (trace (diagnose_nonbib config)) =
     [("task_output_results", [_data (NonBibRecord diagnose_nonbib_test_data)])] /\
   len (printed (trace (diagnose_nonbib config))) = 8 /\
   calls (trace (diagnose_nonbib config)) = []) /\
  (outcome (diagnose_metrics config) = inr tt /\
   publications (trace (diagnose_metrics config)) =
     [("task_output_metrics", [_data (MetricsRecord diagnose_metrics_test_data)])] /\
   len (printed (trace (diagnose_metrics config))) = 8 /\
   calls (trace (diagnose_metrics config)) = []).
Proof. apply diagnose_with_keys. Qed.

Lemma diagnose_publishes_one_record_witness :
  Forall (fun k => is_Some (queue_config !! k)) queue_configuration_keys /\
  outcome (diagnose_nonbib queue_config) = inr tt /\
  publications (trace (diagnose_nonbib queue_config)) =
    [("task_output_results", [_data (NonBibRecord diagnose_nonbib_test_data)])].
Proof.
  assert (H : Forall (fun k => is_Some (queue_config !! k)) queue_configuration_keys)
    by (repeat constructor; eexists; reflexivity).
  split; [exact H|].
  destruct (diagnose_publishes_one_record queue_config H) as [(Ho & Hp & _) _].
  split; [exact Ho|exact Hp].
Defined.


(** X10.  When one of the seven configuration keys is missing, each
    diagnose function stops with KeyError for the first missing key, in the
    order it prints them; it has printed the heading line and one line per
    key before that one, and it publishes nothing. *)
Theorem diagnose_missing_key config present k later :
  queue_configuration_keys = present ++ k :: later ->
  Forall (fun k => is_Some (config !! k)) present ->
  config !! k = None ->
  (outcome (diagnose_nonbib config) = inl (KeyError k) /\
   publications (trace (diagnose_nonbib config)) = [] /\
   len (printed (trace (diagnose_nonbib config))) = 1 + len present) /\
  (outcome (diagnose_metrics config) = inl (KeyError k) /\
   publications (trace (diagnose_metrics config)) = [] /\
   len (printed (trace (diagnose_metrics config))) = 1 + len present).
Proof.
  intros Hkeys Hpresent Hk. unfold queue_configuration_keys in Hkeys.
  do 7 (destruct present as [|? present]; cbn in Hkeys;
        [ injection Hkeys as <- <-; split; run_prints; by repeat split
        | injection Hkeys as <- Hkeys;
          apply Forall_cons_1 in Hpresent as [[? ?] Hpresent] ]).
  destruct present; discriminate Hkeys.
Qed.

Lemma diagnose_missing_key_witness :
  queue_config_short !! "CELERY_DEFAULT_EXCHANGE_TYPE" = None /\
  outcome (diagnose_nonbib queue_config_short) =
    inl (KeyError "CELERY_DEFAULT_EXCHANGE_TYPE") /\
  publications (trace (diagnose_nonbib queue_config_short)) = [] /\
  len (printed (trace (diagnose_nonbib queue_config_short))) = 3.
Proof.
  assert (H1 : queue_configuration_keys =
               ["CELERY_BROKER"; "CELERY_DEFAULT_EXCHANGE"]
               ++ "CELERY_DEFAULT_EXCHANGE_TYPE"
                  :: ["OUTPUT_CELERY_BROKER"; "OUTPUT_TASKNAME";
                      "INGEST_DATABASE"; "METRICS_DATABASE"]) by reflexivity.
  assert (H2 : Forall (fun k => is_Some (queue_config_short !! k))
                 ["CELERY_BROKER"; "CELERY_DEFAULT_EXCHANGE"])
    by (repeat constructor; eexists; reflexivity).
  assert (H3 : queue_config_short !! "CELERY_DEFAULT_EXCHANGE_TYPE" = None)
    by reflexivity.
  split; [exact H3|].
  exact (proj1 (diagnose_missing_key queue_config_short _ _ _ H1 H2 H3)).
Defined.


End Diagnose.

(* ===================================================================== *)
(** ** More on main *)
(* ===================================================================== *)

Section MainMore.
Import Py Run Examples.

(** main is its prologue, the if/elif chain, and, when the chain ends
    normally, its epilogue. *)
Lemma main_shape env loaded a :
  outcome (main env loaded a) =
    match outcome (main_dispatch env loaded a) with
    | inl e => inl e
    | inr _ => inr tt
    end /\
  trace (main env loaded a) =
    main_prologue loaded a ++ trace (main_dispatch env loaded a) ++
    match outcome (main_dispatch env loaded a) with
    | inl _ => []
    | inr _ => main_epilogue loaded a
    end.
Proof.
  unfold main. cbv zeta. unfold call_method, log.
  repeat first [ rewrite getattr_command | rewrite getattr_fileType
               | rewrite bind_ret_l | rewrite bind_call | rewrite bind_emit ].
  fold (main_nonbib_db_engine loaded) (main_metrics_db_engine loaded).
  fold (main_nonbib_db_conn loaded) (main_metrics_db_conn loaded).
  fold (main_dispatch env loaded a).
  rewrite !outcome_after, !trace_after, outcome_bind, trace_bind.
  destruct (outcome (main_dispatch env loaded a)) as [e|[]].
  - split; [reflexivity|]. unfold main_prologue. cbn [app]. by rewrite app_nil_r.
  - destruct a. split; reflexivity.
Qed.

Lemma dispatch_find a arms orelse :
  Forall (fun arm => Forall (fun x => x ∈ attribute_names) (arm_required arm)) arms ->
  dispatch (parse_args a) arms orelse =
  match List.find (fun arm => selects a (arm_head arm)) arms with
  | Some arm => arm_body arm
  | None => orelse
  end.
Proof.
  induction 1 as [|arm arms Harm _ IH]; [reflexivity|].
  cbn [dispatch List.find]. rewrite (arm_test_parse_args a arm Harm), bind_ret_l.
  destruct (selects a (arm_head arm)); [reflexivity|exact IH].
Qed.

Lemma main_dispatch_find env loaded a :
  main_dispatch env loaded a =
  match List.find (fun arm => selects a (arm_head arm))
          (arms env loaded (parse_args a)
             (main_nonbib_db_engine loaded) (main_nonbib_db_conn loaded)
             (main_metrics_db_engine loaded) (main_metrics_db_conn loaded)) with
  | Some arm => arm_body arm
  | None => illegal_command (parse_args a)
  end.
Proof.
  unfold main_dispatch. apply dispatch_find.
  pose proof requirements_attributes as Hr.
  rewrite <- (arms_requirements env loaded (parse_args a)
                (main_nonbib_db_engine loaded) (main_nonbib_db_conn loaded)
                (main_metrics_db_engine loaded) (main_metrics_db_conn loaded)) in Hr.
  rewrite Forall_fmap in Hr. exact Hr.
Qed.

(** X11.  The if/elif chain of main runs the body of the first arm, in
    source order, whose command equals args.command and whose required
    attributes are all true, and the else arm when there is none;
    evaluating the conditions never raises and has no effect. *)
Theorem main_runs_first_matching_arm env loaded a :
  main_dispatch env loaded a =
  match List.find (fun arm => selects a (arm_head arm))
          (arms env loaded (parse_args a)
             (main_nonbib_db_engine loaded) (main_nonbib_db_conn loaded)
             (main_metrics_db_engine loaded) (main_metrics_db_conn loaded)) with
  | Some arm => arm_body arm
  | None => illegal_command (parse_args a)
  end.
Proof. apply main_dispatch_find. Qed.

Lemma main_run env loaded a :
  outcome (main env loaded a) = outcome (main_dispatch env loaded a) /\
  publications (trace (main env loaded a)) =
    publications (trace (main_dispatch env loaded a)) /\
  calls (trace (main env loaded a)) =
    [ (VGlobal "create_engine",
        [dict_get loaded "INGEST_DATABASE" default_database]);
      (VAttr (main_nonbib_db_engine loaded) "connect", []);
      (VGlobal "create_engine",
        [dict_get loaded "METRICS_DATABASE" default_database]);
      (VAttr (main_metrics_db_engine loaded) "connect", []) ]
    ++ calls (trace (main_dispatch env loaded a))
    ++ match outcome (main_dispatch env loaded a) with
       | inl _ => []
       | inr _ => [(VAttr (main_nonbib_db_conn loaded) "close", [])]
       end.
Proof.
  destruct (main_shape env loaded a) as [Ho Ht]. rewrite Ho, Ht.
  rewrite !publications_app, !calls_app.
  destruct (outcome (main_dispatch env loaded a)) as [e|[]];
    repeat split; cbn; by rewrite ?app_nil_r.
Qed.

(** X12.  Around the chain, for every command line: main creates both
    engines and opens both connections first; it publishes nothing itself;
    an exception raised in the selected arm leaves main, and then the
    ingest connection is not closed; when the arm returns, main closes the
    ingest connection (the metrics connection is left open) and returns. *)
Theorem main_effects env loaded a :
  outcome (main env loaded a) = outcome (main_dispatch env loaded a) /\
  publications (trace (main env loaded a)) =
    publications (trace (main_dispatch env loaded a)) /\
  calls (trace (main env loaded a)) =
    [ (VGlobal "create_engine",
        [dict_get loaded "INGEST_DATABASE" default_database]);
      (VAttr (main_nonbib_db_engine loaded) "connect", []);
      (VGlobal "create_engine",
        [dict_get loaded "METRICS_DATABASE" default_database]);
      (VAttr (main_metrics_db_engine loaded) "connect", []) ]
    ++ calls (trace (main_dispatch env loaded a))
    ++ match outcome (main_dispatch env loaded a) with
       | inl _ => []
       | inr _ => [(VAttr (main_nonbib_db_conn loaded) "close", [])]
       end.
Proof. apply main_run. Qed.

Lemma main_called env loaded a :
  called (trace (main env loaded a)) =
    ["create_engine"; "connect"; "create_engine"; "connect"]
    ++ called (trace (main_dispatch env loaded a))
    ++ match outcome (main_dispatch env loaded a) with
       | inl _ => []
       | inr _ => ["close"]
       end.
Proof.
  unfold called. destruct (main_run env loaded a) as (_ & _ & ->).
  rewrite !fmap_app. f_equal. f_equal. by destruct (outcome _).
Qed.

Lemma main_store_calls env loaded a :
  store_calls (trace (main env loaded a)) =
    ["connect"; "connect"]
    ++ store_calls (trace (main_dispatch env loaded a))
    ++ match outcome (main_dispatch env loaded a) with
       | inl _ => []
       | inr _ => ["close"]
       end.
Proof.
  unfold store_calls. rewrite main_called, !List.filter_app. f_equal. f_equal.
  by destruct (outcome _).
Qed.

Lemma main_published env loaded a :
  published (trace (main env loaded a)) =
  published (trace (main_dispatch env loaded a)).
Proof.
  rewrite !published_publications.
  by destruct (main_run env loaded a) as (_ & -> & _).
Qed.

Lemma called_call callee args : called [EvCall callee args] = [callee_name callee].
Proof. reflexivity. Qed.

Lemma called_cons_call callee args tr :
  called (EvCall callee args :: tr) = callee_name callee :: called tr.
Proof. reflexivity. Qed.

Lemma nonempty_eqb s : s <> "" -> String.eqb s "" = false.
Proof. intros H. by apply String.eqb_neq. Qed.

Lemma getattr_rowViewSchemaName a :
  getattr (parse_args a) "rowViewSchemaName" = ret (VStr (rowViewSchemaName a)).
Proof. reflexivity. Qed.

Lemma getattr_metricsSchemaName a :
  getattr (parse_args a) "metricsSchemaName" = ret (VStr (metricsSchemaName a)).
Proof. reflexivity. Qed.

Lemma getattr_rowViewBaselineSchemaName a :
  getattr (parse_args a) "rowViewBaselineSchemaName" =
  ret (VStr (rowViewBaselineSchemaName a)).
Proof. reflexivity. Qed.

Lemma getattr_batchSize a : getattr (parse_args a) "batchSize" = ret (batchSize a).
Proof. reflexivity. Qed.

Lemma getattr_diagnose a :
  getattr (parse_args a) "diagnose" = ret (VBool (diagnose a)).
Proof. reflexivity. Qed.

Lemma find_at {A} (f : A -> bool) (l : list A) (i : nat) (x : A) :
  nth_error l i = Some x ->
  forallb (fun y => negb (f y)) (firstn i l) = true ->
  f x = true ->
  List.find f l = Some x.
Proof.
  revert i. induction l as [|y l IH]; intros [|i]; cbn; try done.
  - intros [= ->] _ ->. done.
  - intros Hx Hpre Hf. apply andb_true_iff in Hpre as [Hy Hpre].
    apply negb_true_iff in Hy. rewrite Hy. by apply (IH i).
Qed.

(** Replaces the chain by the body of arm number [i] (from 0, in source
    order), for a command line that selects it, and reads the attributes
    the body starts with.  Leaves the arm's condition to prove when it does
    not follow by computation. *)
Ltac chosen_arm i :=
  rewrite main_dispatch_find;
  erewrite (find_at _ _ i);
    [ | reflexivity | lazy; reflexivity | try (lazy; reflexivity) ];
  [ cbv beta iota; cbn [arm_body];
    repeat first
      [ rewrite getattr_command | rewrite getattr_fileType
      | rewrite getattr_rowViewSchemaName | rewrite getattr_metricsSchemaName
      | rewrite getattr_rowViewBaselineSchemaName | rewrite getattr_batchSize
      | rewrite getattr_diagnose | rewrite bind_ret_l ];
    cbn [command fileType rowViewSchemaName metricsSchemaName
         rowViewBaselineSchemaName batchSize diagnose] | .. ].

Lemma py_int_cases v : (exists n, py_int v = ret n) \/ (exists e, py_int v = raise e).
Proof.
  destruct v; cbn; eauto. destruct (parse_int s); eauto.
Qed.

(** int() on the texts a command line can give for --batchSize, and on
    values of other types. *)
Lemma py_int_values :
  py_int (VInt 100) = ret 100 /\
  py_int (VStr "2") = ret 2 /\
  py_int (VStr "-1") = ret (-1) /\
  py_int (VStr "+2") = ret 2 /\
  py_int (VStr " 2 ") = ret 2 /\
  py_int (VStr "007") = ret 7 /\
  py_int (VFloat (5 # 2)) = ret 2 /\
  py_int (VFloat (-5 # 2)) = ret (-2) /\
  py_int (VStr "") = raise (ValueError "invalid literal for int() with base 10") /\
  py_int (VStr "2.5") = raise (ValueError "invalid literal for int() with base 10") /\
  py_int (VStr "two") = raise (ValueError "invalid literal for int() with base 10") /\
  py_int (VStr "-") = raise (ValueError "invalid literal for int() with base 10") /\
  py_int VNone = raise (TypeError "int() argument must be a string or a number").
Proof. repeat split. Qed.

(** The sum at line 32 of run.py on values a configuration can hold. *)
Lemma py_add_values :
  py_add (VStr "/data/") (VStr "all.links") = ret (VStr "/data/all.links") /\
  py_add (VStr "/data/") VNone =
    raise (TypeError "unsupported operand type(s) for +") /\
  py_add VNone (VStr "all.links") =
    raise (TypeError "unsupported operand type(s) for +") /\
  py_add (VStr "/data/") (VInt 3) =
    raise (TypeError "unsupported operand type(s) for +") /\
  py_add (VStr "/data/") (VBool true) =
    raise (TypeError "unsupported operand type(s) for +") /\
  py_add (VStr "/data/") (VList [VStr "all.links"]) =
    raise (TypeError "unsupported operand type(s) for +") /\
  py_add (VDict ∅) (VDict ∅) =
    raise (TypeError "unsupported operand type(s) for +") /\
  py_add (VInt 1) (VBool true) = ret (VInt 2) /\
  py_add (VList [VInt 1]) (VList [VInt 2]) = ret (VList [VInt 1; VInt 2]).
Proof. repeat split. Qed.

(** X13.  With --diagnose, the commands help, nonbibToMasterPipeline and
    metricsToMasterPipeline only run the diagnose functions: with the seven
    configuration keys present main returns normally, publishes the
    hard-coded nonbib record (not for metricsToMasterPipeline) and then the
    hard-coded metrics record (not for nonbibToMasterPipeline), and its only
    calls that reach a database are the two connects and the final close. *)
Theorem main_diagnose env loaded a :
  diagnose a = true ->
  command a ∈ ["help"; "nonbibToMasterPipeline"; "metricsToMasterPipeline"] ->
  Forall (fun k => is_Some (loaded !! k)) queue_configuration_keys ->
  outcome (main env loaded a) = inr tt /\
  publications (trace (main env loaded a)) =
    (if String.eqb (command a) "metricsToMasterPipeline" then []
     else [("task_output_results",
            [_data (NonBibRecord diagnose_nonbib_test_data)])])
    ++ (if String.eqb (command a) "nonbibToMasterPipeline" then []
        else [("task_output_metrics",
               [_data (MetricsRecord diagnose_metrics_test_data)])]) /\
  store_calls (trace (main env loaded a)) = ["connect"; "connect"; "close"].
Proof.
  intros Hd Hc Hkeys.
  destruct (diagnose_with_keys loaded Hkeys)
    as [(Hno & Hnp & _ & Hnc) (Hmo & Hmp & _ & Hmc)].
  assert (Hns : store_calls (trace (diagnose_nonbib loaded)) = [])
    by (unfold store_calls, called; by rewrite Hnc).
  assert (Hms : store_calls (trace (diagnose_metrics loaded)) = [])
    by (unfold store_calls, called; by rewrite Hmc).
  destruct (main_run env loaded a) as (Ho & Hp & _).
  rewrite Ho, Hp, main_store_calls. clear Ho Hp.
  destruct a as [ft rv ms bl bs d c]. cbn in Hd, Hc. subst d.
  repeat (apply elem_of_cons in Hc as [->|Hc]); [| | |by apply elem_of_nil in Hc].
  - chosen_arm 0%nat.
    rewrite outcome_bind, trace_bind, Hno, Hmo, publications_app, store_calls_app.
    rewrite Hnp, Hmp, Hns, Hms. repeat split.
  - chosen_arm 18%nat.
    rewrite Hno, Hnp, Hns. repeat split.
  - chosen_arm 21%nat.
    rewrite Hmo, Hmp, Hms. repeat split.
Qed.

Lemma main_diagnose_witness :
  let a := {| fileType := VNone; rowViewSchemaName := "nonbib";
              metricsSchemaName := "metrics";
              rowViewBaselineSchemaName := "nonbibstaging";
              batchSize := VInt 1; diagnose := true; command := "help" |} in
  outcome (main store queue_config a) = inr tt /\
  publications (trace (main store queue_config a)) =
    [("task_output_results", [_data (NonBibRecord diagnose_nonbib_test_data)]);
     ("task_output_metrics", [_data (MetricsRecord diagnose_metrics_test_data)])] /\
  store_calls (trace (main store queue_config a)) = ["connect"; "connect"; "close"].
Proof.
  cbv zeta.
  refine (main_diagnose store queue_config
            {| fileType := VNone; rowViewSchemaName := "nonbib";
               metricsSchemaName := "metrics";
               rowViewBaselineSchemaName := "nonbibstaging";
               batchSize := VInt 1; diagnose := true; command := "help" |}
            eq_refl _ _).
  - by left.
  - repeat constructor; eexists; reflexivity.
Defined.


(** X14.  nonbibToMasterPipeline (without --diagnose) and
    nonbibDeltaToMasterPipeline, run from the command line with a batch size
    int() accepts, end main with UnboundLocalError for [nonbib]: nothing is
    published, and after the two connects no call reaches a database, the
    close of the ingest connection included. *)
Theorem main_nonbib_commands_fail env loaded a n :
  (command a = "nonbibToMasterPipeline" /\ diagnose a = false) \/
  command a = "nonbibDeltaToMasterPipeline" ->
  py_int (batchSize a) = ret n ->
  outcome (main env loaded a) = inl (UnboundLocalError "nonbib") /\
  published (trace (main env loaded a)) = [] /\
  store_calls (trace (main env loaded a)) = ["connect"; "connect"].
Proof.
  intros Hc Hn.
  destruct (main_run env loaded a) as (Ho & _ & _).
  rewrite Ho, main_published, main_store_calls. clear Ho.
  destruct a as [ft rv ms bl bs d c]. cbn in Hc, Hn.
  destruct Hc as [[-> ->]| ->].
  - chosen_arm 19%nat.
    rewrite Hn, bind_ret_l. repeat split.
  - chosen_arm 20%nat.
    unfold print. rewrite bind_emit, Hn, bind_ret_l. repeat split.
Qed.

Lemma main_nonbib_commands_fail_witness :
  py_int (batchSize (default_args "nonbibToMasterPipeline")) = ret 1 /\
  outcome (main store ∅ (default_args "nonbibToMasterPipeline")) =
    inl (UnboundLocalError "nonbib") /\
  published (trace (main store ∅ (default_args "nonbibToMasterPipeline"))) = [] /\
  store_calls (trace (main store ∅ (default_args "nonbibToMasterPipeline"))) =
    ["connect"; "connect"].
Proof.
  split; [reflexivity|].
  apply (main_nonbib_commands_fail store ∅
           (default_args "nonbibToMasterPipeline") 1).
  - left. split; reflexivity.
  - reflexivity.
Defined.


(** X15.  metricsDeltaToMasterPipeline from the command line never
    forwards anything: main calls nonbib_delta_to_master_pipeline with
    three arguments (line 371), which takes at most two, so main ends with
    TypeError when int() accepts the batch size (and with int()'s error
    otherwise); either way nothing is published and only the two connects
    reach a database. *)
Theorem main_metrics_delta_command_fails env loaded a :
  command a = "metricsDeltaToMasterPipeline" ->
  (exists e, outcome (main env loaded a) = inl e) /\
  (forall n, py_int (batchSize a) = ret n ->
     outcome (main env loaded a) =
       inl (TypeError "nonbib_delta_to_master_pipeline() takes at most 2 arguments")) /\
  published (trace (main env loaded a)) = [] /\
  store_calls (trace (main env loaded a)) = ["connect"; "connect"].
Proof.
  intros Hc.
  destruct (main_run env loaded a) as (Ho & _ & _).
  rewrite Ho, main_published, main_store_calls. clear Ho.
  destruct a as [ft rv ms bl bs d c]. cbn in Hc. subst c. cbn [batchSize].
  chosen_arm 23%nat.
  destruct (py_int_cases bs) as [[n Hn]|[e He]].
  - rewrite Hn, bind_ret_l. split; [by eexists|]. split; [|by split].
    intros n' [= <-]. reflexivity.
  - rewrite He. split; [by eexists|]. split; [|by split].
    intros n' Hn'. discriminate Hn'.
Qed.

Lemma main_metrics_delta_command_fails_witness :
  outcome (main store ∅ (default_args "metricsDeltaToMasterPipeline")) =
    inl (TypeError "nonbib_delta_to_master_pipeline() takes at most 2 arguments") /\
  published (trace (main store ∅ (default_args "metricsDeltaToMasterPipeline"))) = [].
Proof.
  destruct (main_metrics_delta_command_fails store ∅
              (default_args "metricsDeltaToMasterPipeline") eq_refl)
    as (_ & Ho & Hp & _).
  split; [exact (Ho 1 eq_refl)|exact Hp].
Defined.


(** X16.  metricsToMasterPipeline (without --diagnose) hands the metrics
    schema name, which may even be empty, and the batch size to
    metrics_to_master_pipeline: main publishes exactly what that call
    publishes and ends as it ends; the ingest connection is closed only
    when it returns normally. *)
Theorem main_metrics_to_master_pipeline env loaded a n :
  command a = "metricsToMasterPipeline" ->
  diagnose a = false ->
  py_int (batchSize a) = ret n ->
  let run := metrics_to_master_pipeline env (VStr (metricsSchemaName a)) n in
  outcome (main env loaded a) = outcome run /\
  published (trace (main env loaded a)) = published (trace run) /\
  called (trace (main env loaded a)) =
    ["create_engine"; "connect"; "create_engine"; "connect";
     "Metrics"; "connect"; "execute"]
    ++ match outcome run with inl _ => [] | inr _ => ["close"] end.
Proof.
  intros Hc Hd Hn. cbv zeta.
  destruct (main_run env loaded a) as (Ho & _ & _).
  rewrite Ho, main_published, main_called. clear Ho.
  destruct a as [ft rv ms bl bs d c]. cbn in Hc, Hd, Hn. subst c d.
  cbn [metricsSchemaName].
  assert (HD : main_dispatch env loaded
                 {| fileType := ft; rowViewSchemaName := rv;
                    metricsSchemaName := ms; rowViewBaselineSchemaName := bl;
                    batchSize := bs; diagnose := false;
                    command := "metricsToMasterPipeline" |} =
               metrics_to_master_pipeline env (VStr ms) n).
  { chosen_arm 22%nat. by rewrite Hn, bind_ret_l. }
  rewrite HD, metrics_calls. repeat split.
Qed.

Lemma main_metrics_to_master_pipeline_witness :
  (py_int (batchSize (forward_metrics "2")) = ret 2 /\
   published (trace (main store ∅ (forward_metrics "2"))) =
     published (trace (metrics_to_master_pipeline store (VStr "metrics") 2)) /\
   len <$> published (trace (main store ∅ (forward_metrics "2"))) = [2; 1]) /\
  (py_int (batchSize (forward_metrics "-1")) = ret (-1) /\
   outcome (main store ∅ (forward_metrics "-1")) = inr tt /\
   published (trace (main store ∅ (forward_metrics "-1"))) =
     published (trace (metrics_to_master_pipeline store (VStr "metrics") (-1))) /\
   len <$> published (trace (main store ∅ (forward_metrics "-1"))) = [1; 1; 1]).
Proof.
  split.
  - split; [reflexivity|]. split; [|reflexivity].
    exact (proj1 (proj2 (main_metrics_to_master_pipeline store ∅
             (forward_metrics "2") 2 eq_refl eq_refl eq_refl))).
  - split; [reflexivity|]. split; [reflexivity|]. split; [|reflexivity].
    exact (proj1 (proj2 (main_metrics_to_master_pipeline store ∅
             (forward_metrics "-1") (-1) eq_refl eq_refl eq_refl))).
Defined.


(** X17.  With the three schema names non-empty and without --diagnose,
    main takes the else arm exactly for the command help (the default when
    no command is given) and for commands no arm names.  Of the commands
    the help text lists, ingest and verify are among those; logDeltaReasons
    and metricsDeltaToMasterPipeline have an arm without being listed. *)
Theorem illegal_commands a :
  rowViewSchemaName a <> "" ->
  metricsSchemaName a <> "" ->
  rowViewBaselineSchemaName a <> "" ->
  diagnose a = false ->
  (illegal_invocation a = true <->
     command a = "help" \/ command a ∉ requirements.*1) /\
  List.filter (fun c => negb (bool_decide (c ∈ requirements.*1)))
    advertised_commands = ["ingest"; "verify"] /\
  List.filter (fun c => negb (bool_decide (c ∈ advertised_commands)))
    (requirements.*1) = ["help"; "logDeltaReasons"; "metricsDeltaToMasterPipeline"].
Proof.
  intros Hrv Hms Hbl Hd. split; [|split; reflexivity].
  destruct a as [ft rv ms bl bs d c]. cbn in Hrv, Hms, Hbl, Hd. cbn [command].
  subst d.
  destruct rv as [|rv0 rv]; [done|]. destruct ms as [|ms0 ms]; [done|].
  destruct bl as [|bl0 bl]; [done|].
  split.
  - intros Hill. destruct (decide (c ∈ requirements.*1)) as [Hin|Hout]; [|by right].
    left. revert Hill. unfold requirements in Hin. cbn [fmap list_fmap fst] in Hin.
    repeat (apply elem_of_cons in Hin as [->|Hin];
            [first [reflexivity | intros Hill; vm_compute in Hill; discriminate Hill]|]).
    by apply elem_of_nil in Hin.
  - intros [->|Hout]; [reflexivity|]. by apply unrecognized_command_illegal.
Qed.

Lemma illegal_commands_witness :
  illegal_invocation (default_args "verify") = true /\
  illegal_invocation (default_args "help") = true /\
  illegal_invocation (default_args "logDeltaReasons") = false.
Proof.
  assert (H : forall c, let a := default_args c in
            illegal_invocation a = true <->
            command a = "help" \/ command a ∉ requirements.*1).
  { intros c.
    apply (illegal_commands (default_args c)); [discriminate..|reflexivity]. }
  split; [|split].
  - apply (H "verify"). right.
    assert (Hn : bool_decide (command (default_args "verify") ∈ requirements.*1)
                 = false) by reflexivity.
    by apply bool_decide_eq_false_1 in Hn.
  - apply (H "help"). by left.
  - reflexivity.
Defined.


(** X18.  runMetricsPipeline, with non-empty row view and metrics schema
    names, returns normally after exactly these calls, in order: the two
    engine/connect pairs, Metrics(metrics schema), drop_metrics_table and
    create_metrics_table on the metrics engine, update_metrics_all on the
    metrics connection, the ingest connection and the row view schema, and
    the close of the ingest connection.  It publishes nothing. *)
Theorem main_run_metrics_pipeline env loaded a :
  command a = "runMetricsPipeline" ->
  rowViewSchemaName a <> "" ->
  metricsSchemaName a <> "" ->
  let m := VCall (VAttr (VGlobal "metrics") "Metrics")
             [VStr (metricsSchemaName a)] ∅ in
  outcome (main env loaded a) = inr tt /\
  published (trace (main env loaded a)) = [] /\
  calls (trace (main env loaded a)) =
    [ (VGlobal "create_engine",
        [dict_get loaded "INGEST_DATABASE" default_database]);
      (VAttr (main_nonbib_db_engine loaded) "connect", []);
      (VGlobal "create_engine",
        [dict_get loaded "METRICS_DATABASE" default_database]);
      (VAttr (main_metrics_db_engine loaded) "connect", []);
      (VAttr (VGlobal "metrics") "Metrics", [VStr (metricsSchemaName a)]);
      (VAttr m "drop_metrics_table", [main_metrics_db_engine loaded]);
      (VAttr m "create_metrics_table", [main_metrics_db_engine loaded]);
      (VAttr m "update_metrics_all",
        [main_metrics_db_conn loaded; main_nonbib_db_conn loaded;
         VStr (rowViewSchemaName a)]);
      (VAttr (main_nonbib_db_conn loaded) "close", []) ].
Proof.
  intros Hc Hrv Hms. cbv zeta.
  destruct (main_run env loaded a) as (Ho & _ & Hcalls).
  rewrite Ho, main_published, Hcalls. clear Ho Hcalls.
  destruct a as [ft rv ms bl bs d c]. cbn in Hc, Hrv, Hms. subst c.
  destruct rv as [|rv0 rv]; [done|]. destruct ms as [|ms0 ms]; [done|].
  cbn [metricsSchemaName rowViewSchemaName].
  chosen_arm 13%nat.
  unfold Metrics, call_method. rewrite !bind_call. repeat split.
Qed.

Lemma main_run_metrics_pipeline_witness :
  outcome (main store ∅ (default_args "runMetricsPipeline")) = inr tt /\
  published (trace (main store ∅ (default_args "runMetricsPipeline"))) = [] /\
  called (trace (main store ∅ (default_args "runMetricsPipeline"))) =
    ["create_engine"; "connect"; "create_engine"; "connect"; "Metrics";
     "drop_metrics_table"; "create_metrics_table"; "update_metrics_all"; "close"].
Proof.
  destruct (main_run_metrics_pipeline store ∅ (default_args "runMetricsPipeline")
              eq_refl ltac:(discriminate) ltac:(discriminate)) as (Ho & Hp & _).
  split; [exact Ho|]. split; [exact Hp|reflexivity].
Defined.


(** X19.  runRowViewPipeline, with a non-empty row view schema name and a
    configuration that holds text under DATA_PATH and under the key of
    every type (and readers that are true), returns normally: after the connects it constructs
    NonBib(row view schema), drops and creates the column tables, copies
    every type into its table schema.type in the order of all_types,
    creates the joined rows and closes the ingest connection. *)
Theorem main_run_row_view_pipeline env loaded a :
  command a = "runRowViewPipeline" ->
  rowViewSchemaName a <> "" ->
  (forall r, reader_truthy env r = true) ->
  text_at loaded "DATA_PATH" ->
  Forall (fun t => text_at loaded (upper t)) (all_types env) ->
  let sql_sync := VCall (VAttr (VGlobal "nonbib") "NonBib")
                    [VStr (rowViewSchemaName a)] ∅ in
  outcome (main env loaded a) = inr tt /\
  called (trace (main env loaded a)) =
    ["create_engine"; "connect"; "create_engine"; "connect";
     "NonBib"; "drop_column_tables"; "create_column_tables";
     "raw_connection"; "cursor"]
    ++ concat ((fun t => [reader_class t; "copy_from"; "commit"]) <$> all_types env)
    ++ ["close"; "close"; "create_joined_rows"; "close"] /\
  copied_tables (trace (main_dispatch env loaded a)) =
    table_name sql_sync <$> all_types env.
Proof.
  intros Hc Hrv Htr Hdp Hkeys. cbv zeta.
  destruct (main_run env loaded a) as (Ho & _ & _).
  rewrite Ho, main_called. clear Ho.
  destruct a as [ft rv ms bl bs d c]. cbn in Hc, Hrv. subst c.
  destruct rv as [|rv0 rv]; [done|]. cbn [rowViewSchemaName].
  chosen_arm 12%nat.
  unfold NonBib, call_method. rewrite !bind_call.
  set (sql_sync := VCall (VAttr (VGlobal "nonbib") "NonBib") [VStr (String rv0 rv)] ∅).
  destruct (load_column_files_ok env loaded (main_nonbib_db_engine loaded)
              (main_nonbib_db_conn loaded) sql_sync Htr Hdp Hkeys)
    as (Hlo & Hlc & Hlt & _).
  rewrite !outcome_after, !called_after, !trace_after, Hlo, Hlc, !called_call.
  split; [reflexivity|]. split.
  - cbn [app callee_name]. rewrite <- !app_assoc. reflexivity.
  - change (copied_tables (?e1 :: ?e2 :: ?e3 :: ?t)) with (copied_tables t).
    exact Hlt.
Qed.

Lemma main_run_row_view_pipeline_witness :
  outcome (main store column_config (default_args "runRowViewPipeline")) = inr tt /\
  called (trace (main store column_config (default_args "runRowViewPipeline"))) =
    ["create_engine"; "connect"; "create_engine"; "connect";
     "NonBib"; "drop_column_tables"; "create_column_tables";
     "raw_connection"; "cursor";
     "BibcodeFileReader"; "copy_from"; "commit";
     "StandardFileReader"; "copy_from"; "commit";
     "RefereedFileReader"; "copy_from"; "commit";
     "close"; "close"; "create_joined_rows"; "close"].
Proof.
  assert (H1 : forall r, reader_truthy store r = true) by reflexivity.
  assert (H2 : text_at column_config "DATA_PATH") by (eexists; reflexivity).
  assert (H3 : Forall (fun t => text_at column_config (upper t)) (all_types store))
    by (repeat constructor; eexists; reflexivity).
  destruct (main_run_row_view_pipeline store column_config
              (default_args "runRowViewPipeline")
              eq_refl ltac:(discriminate) H1 H2 H3) as (Ho & Hc & _).
  split; [exact Ho|exact Hc].
Defined.


(** X20.  runRowViewPipelineDelta, with non-empty row view and baseline
    schema names and the same configuration, does what runRowViewPipeline
    does and then calls create_delta_rows and log_delta_reasons against the
    baseline schema before the ingest connection is closed. *)
Theorem main_run_row_view_pipeline_delta env loaded a :
  command a = "runRowViewPipelineDelta" ->
  rowViewSchemaName a <> "" ->
  rowViewBaselineSchemaName a <> "" ->
  (forall r, reader_truthy env r = true) ->
  text_at loaded "DATA_PATH" ->
  Forall (fun t => text_at loaded (upper t)) (all_types env) ->
  let sql_sync := VCall (VAttr (VGlobal "nonbib") "NonBib")
                    [VStr (rowViewSchemaName a)] ∅ in
  outcome (main env loaded a) = inr tt /\
  called (trace (main env loaded a)) =
    ["create_engine"; "connect"; "create_engine"; "connect";
     "NonBib"; "drop_column_tables"; "create_column_tables";
     "raw_connection"; "cursor"]
    ++ concat ((fun t => [reader_class t; "copy_from"; "commit"]) <$> all_types env)
    ++ ["close"; "close"; "create_joined_rows";
        "create_delta_rows"; "log_delta_reasons"; "close"] /\
  copied_tables (trace (main_dispatch env loaded a)) =
    table_name sql_sync <$> all_types env.
Proof.
  intros Hc Hrv Hbl Htr Hdp Hkeys. cbv zeta.
  destruct (main_run env loaded a) as (Ho & _ & _).
  rewrite Ho, main_called. clear Ho.
  destruct a as [ft rv ms bl bs d c]. cbn in Hc, Hrv, Hbl. subst c.
  destruct rv as [|rv0 rv]; [done|]. destruct bl as [|bl0 bl]; [done|].
  cbn [rowViewSchemaName rowViewBaselineSchemaName].
  chosen_arm 14%nat.
  unfold NonBib, call_method. rewrite !bind_call.
  set (sql_sync := VCall (VAttr (VGlobal "nonbib") "NonBib") [VStr (String rv0 rv)] ∅).
  destruct (load_column_files_ok env loaded (main_nonbib_db_engine loaded)
              (main_nonbib_db_conn loaded) sql_sync Htr Hdp Hkeys)
    as (Hlo & Hlc & Hlt & _).
  rewrite !outcome_after, !trace_after, outcome_bind, trace_bind, Hlo.
  cbv beta iota.
  repeat first [ rewrite bind_ret_l | rewrite bind_call ].
  rewrite !outcome_after, !trace_after.
  change (outcome (ret tt)) with (@inr Exn unit tt).
  change (trace (ret tt)) with (@nil Event).
  split; [reflexivity|]. split.
  - rewrite !called_cons_call, called_app, Hlc, !called_cons_call.
    change (called []) with (@nil string).
    cbn [app callee_name]. rewrite <- !app_assoc. reflexivity.
  - change (copied_tables (?e1 :: ?e2 :: ?e3 :: ?t)) with (copied_tables t).
    rewrite copied_tables_app, Hlt. cbn. by rewrite app_nil_r.
Qed.

Lemma main_run_row_view_pipeline_delta_witness :
  outcome (main store column_config (default_args "runRowViewPipelineDelta")) =
    inr tt /\
  called (trace (main store column_config (default_args "runRowViewPipelineDelta"))) =
    ["create_engine"; "connect"; "create_engine"; "connect";
     "NonBib"; "drop_column_tables"; "create_column_tables";
     "raw_connection"; "cursor";
     "BibcodeFileReader"; "copy_from"; "commit";
     "StandardFileReader"; "copy_from"; "commit";
     "RefereedFileReader"; "copy_from"; "commit";
     "close"; "close"; "create_joined_rows";
     "create_delta_rows"; "log_delta_reasons"; "close"].
Proof.
  assert (H1 : forall r, reader_truthy store r = true) by reflexivity.
  assert (H2 : text_at column_config "DATA_PATH") by (eexists; reflexivity).
  assert (H3 : Forall (fun t => text_at column_config (upper t)) (all_types store))
    by (repeat constructor; eexists; reflexivity).
  destruct (main_run_row_view_pipeline_delta store column_config
              (default_args "runRowViewPipelineDelta")
              eq_refl ltac:(discriminate) ltac:(discriminate) H1 H2 H3)
    as (Ho & Hc & _).
  split; [exact Ho|exact Hc].
Defined.


End MainMore.
